(** * ALPACA: interface block storage and the WENO9 reconstruction stencil

    A shallow embedding of [src/interface_block.cpp] and of
    [src/stencils/spatial_reconstruction_stencils/weno9.cpp].

    - A C++ [double] is a binary64 value: [PrimFloat.float].  The interface
      block only stores, copies and compares doubles, so it is modelled on
      [float] directly.
    - The WENO9 kernel is written once over an [Arithmetic] interface and
      read at two instances: binary64 ([float], what the program computes)
      and the real numbers ([R], exact arithmetic: no rounding, no
      overflow), the setting in which the algebraic laws of the scheme hold.
    - The constants of the kernel are declared in [weno9.h], outside the two
      files embedded here: they are the fields of a record the kernel takes
      as a parameter, and the theorems state what they need of them.
    - A reference returned by an accessor is a [BufferRef]: the member of the
      block it points into and the index inside that member.  The block is a
      store from references to field buffers.
    - [throw] and undefined behaviour are outcomes of the [Outcome] type. *)

From Stdlib Require Import ZArith List Bool Lia String PrimFloat Reals Lra.
Import ListNotations.

Set Implicit Arguments.

(** * Build configuration and outcomes *)

(** [#ifdef PERFORMANCE] selects the performance build, otherwise the checked
    build is compiled. *)
Inductive Build : Type := Checked | Performance.

Definition is_checked (b : Build) : bool :=
  match b with Checked => true | Performance => false end.

Inductive Exception : Type :=
| invalid_argument (what : string)
| logic_error (what : string).

(** The result of a call: a value, a thrown exception, or undefined behaviour
    (an array read past its end, a division that is not defined). *)
Inductive Outcome (A : Type) : Type :=
| Return (a : A)
| Throw (e : Exception)
| Undefined.

Arguments Return {A} a.
Arguments Throw {A} e.
Arguments Undefined {A}.

Definition raises {A : Type} (o : Outcome A) : bool :=
  match o with Throw _ => true | _ => false end.

(** The outcome with its value, when there is one, sent through [f]. *)
Definition map_outcome {A B : Type} (f : A -> B) (o : Outcome A) : Outcome B :=
  match o with
  | Return a => Return (f a)
  | Throw e => Throw e
  | Undefined => Undefined
  end.

(** * Interface block *)

Module InterfaceBlock.

(** ** Enumerations named by [interface_block.cpp] *)

Inductive InterfaceDescription : Type := Levelset | VolumeFraction.

Inductive InterfaceState : Type := Velocity | PressurePositive | PressureNegative.

Inductive InterfaceParameter : Type := SurfaceTensionCoefficient.

Inductive InterfaceDescriptionBufferType : Type :=
| RightHandSide | Reinitialized | Base | Initial.

Inductive InterfaceFieldType : Type := Description | Parameters | States.

(** The enumerators the switch of [GetBuffer] names, and [Unlisted] for any
    other value an [InterfaceBlockBufferType] object can hold (the [default]
    label of the switch). *)
Inductive InterfaceBlockBufferType : Type :=
| LevelsetBase
| VolumeFractionBase
| LevelsetRightHandSide
| VolumeFractionRightHandSide
| LevelsetReinitialized
| VolumeFractionReinitialized
| InterfaceStateVelocity
| InterfaceStatePressurePositive
| InterfaceStatePressureNegative
| InterfaceParameterSurfaceTensionCoefficient
| Unlisted (raw : Z).

(** ** Storage *)

(** The data members of the class. *)
Inductive Member : Type :=
| base_ | right_hand_side_ | reinitialized_ | initial_ | states_ | parameters_.

Definition Member_eqb (m n : Member) : bool :=
  match m, n with
  | base_, base_ | right_hand_side_, right_hand_side_
  | reinitialized_, reinitialized_ | initial_, initial_
  | states_, states_ | parameters_, parameters_ => true
  | _, _ => false
  end.

(** [member[index]]: the storage a [double (&)[TCX][TCY][TCZ]] result
    denotes. *)
Record BufferRef : Type := MkRef { ref_member : Member; ref_index : nat }.

Definition BufferRef_eqb (r s : BufferRef) : bool :=
  Member_eqb (ref_member r) (ref_member s) && Nat.eqb (ref_index r) (ref_index s).

Definition Cell : Type := (nat * nat * nat)%type.

(** [double [TCX][TCY][TCZ]] *)
Definition FieldBuffer : Type := Cell -> float.

(** The state of a block: the content of every buffer. *)
Definition Block : Type := BufferRef -> FieldBuffer.

(** Modelled from the spec: the buffer structs [InterfaceDescriptions],
    [InterfaceStates] and [InterfaceParameters] (declared outside
    [interface_block.cpp]) are fixed-size arrays indexed by the ordinal of
    the enumerator, in the order the spec lists the enumerators. *)
Definition DescriptionIndex (d : InterfaceDescription) : nat :=
  match d with Levelset => 0 | VolumeFraction => 1 end.

Definition StateIndex (s : InterfaceState) : nat :=
  match s with Velocity => 0 | PressurePositive => 1 | PressureNegative => 2 end.

Definition ParameterIndex (p : InterfaceParameter) : nat :=
  match p with SurfaceTensionCoefficient => 0 end.

Section Block.

(** [CC::TCX()], [CC::TCY()], [CC::TCZ()]: cells per direction, halo
    included; [CC::InterfaceParameterModelActive()]. *)
Variables TCX TCY TCZ : nat.
Variable InterfaceParameterModelActive : bool.

Definition in_block (c : Cell) : bool :=
  let '(i, j, k) := c in (i <? TCX) && (j <? TCY) && (k <? TCZ).

(** Modelled from the spec: the number of buffers a member holds: two
    descriptions per role, three states, and the parameter buffers only when
    the interface-parameter model is enabled. *)
Definition buffer_count (m : Member) : nat :=
  match m with
  | states_ => 3
  | parameters_ => if InterfaceParameterModelActive then 1 else 0
  | _ => 2
  end.

(** A reference denotes an existing buffer under the active configuration. *)
Definition exists_buffer (r : BufferRef) : bool :=
  ref_index r <? buffer_count (ref_member r).

(** ** Accessors *)

Definition GetBaseBuffer (interface_description : InterfaceDescription) : BufferRef :=
  MkRef base_ (DescriptionIndex interface_description).

Definition GetRightHandSideBuffer (interface_description : InterfaceDescription) : BufferRef :=
  MkRef right_hand_side_ (DescriptionIndex interface_description).

Definition GetReinitializedBuffer (interface_description : InterfaceDescription) : BufferRef :=
  MkRef reinitialized_ (DescriptionIndex interface_description).

Definition GetInitialBuffer (interface_description : InterfaceDescription) : BufferRef :=
  MkRef initial_ (DescriptionIndex interface_description).

Definition GetInterfaceStateBuffer (state_type : InterfaceState) : BufferRef :=
  MkRef states_ (StateIndex state_type).

Definition GetInterfaceParameterBuffer (parameter_type : InterfaceParameter) : BufferRef :=
  MkRef parameters_ (ParameterIndex parameter_type).

(** The overloads without argument return the whole struct. *)
Definition GetBaseBuffer_all : Member := base_.
Definition GetRightHandSideBuffer_all : Member := right_hand_side_.
Definition GetReinitializedBuffer_all : Member := reinitialized_.
Definition GetInitialBuffer_all : Member := initial_.
Definition GetInterfaceStateBuffer_all : Member := states_.
Definition GetInterfaceParameterBuffer_all : Member := parameters_.

Definition GetInterfaceDescriptionBuffer (buffer_type : InterfaceDescriptionBufferType) : Member :=
  match buffer_type with
  | RightHandSide => right_hand_side_
  | Reinitialized => reinitialized_
  | Base => base_
  | _ => initial_
  end.

(** The overloads [GetInterfaceDescriptionBuffer<T>()] (lines 229 to 297):
    one specialisation per role, each calling the whole-struct accessor of
    the role. *)
Definition GetInterfaceDescriptionBuffer_template (T : InterfaceDescriptionBufferType)
    : Member :=
  match T with
  | Base => GetBaseBuffer_all
  | RightHandSide => GetRightHandSideBuffer_all
  | Reinitialized => GetReinitializedBuffer_all
  | Initial => GetInitialBuffer_all
  end.

Definition GetFieldBuffer (field_type : InterfaceFieldType) (field_index : nat)
    (buffer_type : InterfaceDescriptionBufferType) : BufferRef :=
  match field_type with
  | Description => MkRef (GetInterfaceDescriptionBuffer buffer_type) field_index
  | Parameters => MkRef parameters_ field_index
  | _ => MkRef states_ field_index
  end.

Definition GetBuffer (build : Build) (buffer_type : InterfaceBlockBufferType)
    : Outcome BufferRef :=
  match buffer_type with
  | LevelsetBase => Return (MkRef base_ (DescriptionIndex Levelset))
  | VolumeFractionBase => Return (MkRef base_ (DescriptionIndex VolumeFraction))
  | LevelsetRightHandSide => Return (MkRef right_hand_side_ (DescriptionIndex Levelset))
  | VolumeFractionRightHandSide =>
      Return (MkRef right_hand_side_ (DescriptionIndex VolumeFraction))
  | LevelsetReinitialized => Return (MkRef reinitialized_ (DescriptionIndex Levelset))
  | VolumeFractionReinitialized =>
      Return (MkRef reinitialized_ (DescriptionIndex VolumeFraction))
  | InterfaceStateVelocity => Return (MkRef states_ (StateIndex Velocity))
  | InterfaceStatePressurePositive => Return (MkRef states_ (StateIndex PressurePositive))
  | InterfaceStatePressureNegative => Return (MkRef states_ (StateIndex PressureNegative))
  | other =>
      match build with
      | Performance =>
          Return (MkRef parameters_ (ParameterIndex SurfaceTensionCoefficient))
      | Checked =>
          match other with
          | InterfaceParameterSurfaceTensionCoefficient =>
              Return (MkRef parameters_ (ParameterIndex SurfaceTensionCoefficient))
          | _ => Throw (invalid_argument "Requested buffer does not exist (impossible error")
          end
      end
  end.

(** ** Buffer operations *)

Definition store (r : BufferRef) (b : FieldBuffer) (blk : Block) : Block :=
  fun s => if BufferRef_eqb s r then b else blk s.

(** Modelled from the spec: [BufferOperations::SetSingleBuffer] (in
    [utilities/buffer_operations.h]) writes the value into every cell of one
    buffer. *)
Definition SetSingleBuffer (r : BufferRef) (value : float) (blk : Block) : Block :=
  store r (fun c => if in_block c then value else blk r c) blk.

(** Modelled from the spec: [BufferOperations::CopySingleBuffer] copies the
    source array into the buffer, cell by cell. *)
Definition CopySingleBuffer (source : FieldBuffer) (r : BufferRef) (blk : Block) : Block :=
  store r (fun c => if in_block c then source c else blk r c) blk.

(** Modelled from the spec: [BufferOperations::SetFieldBuffer] writes the
    value into every buffer of a buffer struct. *)
Definition SetFieldBuffer (m : Member) (value : float) (blk : Block) : Block :=
  fold_left (fun b i => SetSingleBuffer (MkRef m i) value b) (seq 0 (buffer_count m)) blk.

(** ** Constructors

    The storage of a block under construction holds indeterminate values:
    [raw] is that content, the result is the content when the constructor
    returns. *)

Definition InterfaceBlock_field (levelset_initial : FieldBuffer) (raw : Block) : Block :=
  let blk := SetFieldBuffer GetBaseBuffer_all 0%float raw in
  let blk := CopySingleBuffer levelset_initial (GetRightHandSideBuffer Levelset) blk in
  let blk := CopySingleBuffer levelset_initial (GetReinitializedBuffer Levelset) blk in
  let blk := SetSingleBuffer (GetRightHandSideBuffer VolumeFraction) 0%float blk in
  let blk := SetSingleBuffer (GetReinitializedBuffer VolumeFraction) 0%float blk in
  let blk := SetFieldBuffer GetInitialBuffer_all 0%float blk in
  let blk := SetFieldBuffer GetInterfaceStateBuffer_all 0%float blk in
  if InterfaceParameterModelActive
  then SetFieldBuffer GetInterfaceParameterBuffer_all 0%float blk
  else blk.

Definition InterfaceBlock_uniform (levelset_initial : float) (raw : Block) : Block :=
  let blk := SetSingleBuffer (GetBaseBuffer Levelset) 0%float raw in
  let blk := SetSingleBuffer (GetBaseBuffer VolumeFraction)
               (if PrimFloat.ltb 0%float levelset_initial then 1%float else 0%float) blk in
  let blk := SetSingleBuffer (GetRightHandSideBuffer Levelset) levelset_initial blk in
  let blk := SetSingleBuffer (GetReinitializedBuffer Levelset) levelset_initial blk in
  let blk := SetSingleBuffer (GetRightHandSideBuffer VolumeFraction) 0%float blk in
  let blk := SetSingleBuffer (GetReinitializedBuffer VolumeFraction) 0%float blk in
  let blk := SetFieldBuffer GetInitialBuffer_all 0%float blk in
  let blk := SetFieldBuffer GetInterfaceStateBuffer_all 0%float blk in
  if InterfaceParameterModelActive
  then SetFieldBuffer GetInterfaceParameterBuffer_all 0%float blk
  else blk.

End Block.

(** ** What an identifier names *)

(** The buffer an [InterfaceBlockBufferType] identifier names: the kind and
    the role its enumerator spells out.  An unlisted value names none. *)
Definition named_buffer (buffer_type : InterfaceBlockBufferType) : option BufferRef :=
  match buffer_type with
  | LevelsetBase => Some (GetBaseBuffer Levelset)
  | VolumeFractionBase => Some (GetBaseBuffer VolumeFraction)
  | LevelsetRightHandSide => Some (GetRightHandSideBuffer Levelset)
  | VolumeFractionRightHandSide => Some (GetRightHandSideBuffer VolumeFraction)
  | LevelsetReinitialized => Some (GetReinitializedBuffer Levelset)
  | VolumeFractionReinitialized => Some (GetReinitializedBuffer VolumeFraction)
  | InterfaceStateVelocity => Some (GetInterfaceStateBuffer Velocity)
  | InterfaceStatePressurePositive => Some (GetInterfaceStateBuffer PressurePositive)
  | InterfaceStatePressureNegative => Some (GetInterfaceStateBuffer PressureNegative)
  | InterfaceParameterSurfaceTensionCoefficient =>
      Some (GetInterfaceParameterBuffer SurfaceTensionCoefficient)
  | Unlisted _ => None
  end.

(** The identifier names a buffer that exists under the feature
    configuration. *)
Definition names_existing_buffer (InterfaceParameterModelActive : bool)
    (buffer_type : InterfaceBlockBufferType) : bool :=
  match named_buffer buffer_type with
  | Some r => exists_buffer InterfaceParameterModelActive r
  | None => false
  end.

(** Sample data for the constructors: a field that differs from cell to
    cell, and a storage content that is nowhere zero. *)
Definition sample_field : FieldBuffer :=
  fun c => let '(i, j, k) := c in
           match i, j, k with
           | 0, 0, 0 => 2.5%float
           | 1, _, _ => (-1)%float
           | _, _, _ => 0.125%float
           end.

Definition sample_storage : Block := fun _ _ => 7%float.

End InterfaceBlock.

(** * Scalar arithmetic

    The operations the kernel applies to a [double].  A division is partial:
    in exact arithmetic the quotient by zero does not exist, in binary64
    every quotient is a value (an infinity or a NaN where IEEE 754 says so).
    In binary64 every operation rounds to nearest on its own: no product is
    fused with the sum that follows it. *)

Class Arithmetic (D : Type) : Type := {
  arith_add : D -> D -> D;
  arith_mul : D -> D -> D;
  arith_div : D -> D -> option D;
  arith_one : D }.

Declare Scope arith_scope.
Delimit Scope arith_scope with arith.
Notation "x + y" := (arith_add x y) : arith_scope.
Notation "x * y" := (arith_mul x y) : arith_scope.
Notation "x / y" := (arith_div x y) : arith_scope.

#[export] Instance binary64 : Arithmetic float := {|
  arith_add := PrimFloat.add;
  arith_mul := PrimFloat.mul;
  arith_div := fun x y => Some (PrimFloat.div x y);
  arith_one := 1%float |}.

#[export] Instance exact_reals : Arithmetic R := {|
  arith_add := Rplus;
  arith_mul := Rmult;
  arith_div := fun x y => if Req_dec_T y 0%R then None else Some (x / y)%R;
  arith_one := 1%R |}.

(** * WENO9 *)

Module WENO9.

(** The [static constexpr] members of the class, declared in [weno9.h]. *)
Record Coefficients (D : Type) : Type := MkCoefficients {
  coef_smoothness_0_01_ : D;
  coef_smoothness_0_02_ : D;
  coef_smoothness_0_03_ : D;
  coef_smoothness_0_04_ : D;
  coef_smoothness_0_05_ : D;
  coef_smoothness_0_06_ : D;
  coef_smoothness_0_07_ : D;
  coef_smoothness_0_08_ : D;
  coef_smoothness_0_09_ : D;
  coef_smoothness_0_10_ : D;
  coef_smoothness_0_11_ : D;
  coef_smoothness_0_12_ : D;
  coef_smoothness_0_13_ : D;
  coef_smoothness_0_14_ : D;
  coef_smoothness_0_15_ : D;
  coef_smoothness_1_01_ : D;
  coef_smoothness_1_02_ : D;
  coef_smoothness_1_03_ : D;
  coef_smoothness_1_04_ : D;
  coef_smoothness_1_05_ : D;
  coef_smoothness_1_06_ : D;
  coef_smoothness_1_07_ : D;
  coef_smoothness_1_08_ : D;
  coef_smoothness_1_09_ : D;
  coef_smoothness_1_10_ : D;
  coef_smoothness_1_11_ : D;
  coef_smoothness_1_12_ : D;
  coef_smoothness_1_13_ : D;
  coef_smoothness_1_14_ : D;
  coef_smoothness_1_15_ : D;
  coef_smoothness_2_01_ : D;
  coef_smoothness_2_02_ : D;
  coef_smoothness_2_03_ : D;
  coef_smoothness_2_04_ : D;
  coef_smoothness_2_05_ : D;
  coef_smoothness_2_06_ : D;
  coef_smoothness_2_07_ : D;
  coef_smoothness_2_08_ : D;
  coef_smoothness_2_09_ : D;
  coef_smoothness_2_10_ : D;
  coef_smoothness_2_11_ : D;
  coef_smoothness_2_12_ : D;
  coef_smoothness_2_13_ : D;
  coef_smoothness_2_14_ : D;
  coef_smoothness_2_15_ : D;
  coef_smoothness_3_01_ : D;
  coef_smoothness_3_02_ : D;
  coef_smoothness_3_03_ : D;
  coef_smoothness_3_04_ : D;
  coef_smoothness_3_05_ : D;
  coef_smoothness_3_06_ : D;
  coef_smoothness_3_07_ : D;
  coef_smoothness_3_08_ : D;
  coef_smoothness_3_09_ : D;
  coef_smoothness_3_10_ : D;
  coef_smoothness_3_11_ : D;
  coef_smoothness_3_12_ : D;
  coef_smoothness_3_13_ : D;
  coef_smoothness_3_14_ : D;
  coef_smoothness_3_15_ : D;
  coef_smoothness_4_01_ : D;
  coef_smoothness_4_02_ : D;
  coef_smoothness_4_03_ : D;
  coef_smoothness_4_04_ : D;
  coef_smoothness_4_05_ : D;
  coef_smoothness_4_06_ : D;
  coef_smoothness_4_07_ : D;
  coef_smoothness_4_08_ : D;
  coef_smoothness_4_09_ : D;
  coef_smoothness_4_10_ : D;
  coef_smoothness_4_11_ : D;
  coef_smoothness_4_12_ : D;
  coef_smoothness_4_13_ : D;
  coef_smoothness_4_14_ : D;
  coef_smoothness_4_15_ : D;
  coef_weights_1_ : D;
  coef_weights_2_ : D;
  coef_weights_3_ : D;
  coef_weights_4_ : D;
  coef_weights_5_ : D;
  coef_stencils_1_ : D;
  coef_stencils_2_ : D;
  coef_stencils_3_ : D;
  coef_stencils_4_ : D;
  coef_stencils_5_ : D;
  coef_stencils_6_ : D;
  coef_stencils_7_ : D;
  coef_stencils_8_ : D;
  coef_stencils_9_ : D;
  coef_stencils_10_ : D;
  coef_stencils_11_ : D;
  coef_stencils_12_ : D;
  coef_stencils_13_ : D;
  coef_stencils_14_ : D;
  coef_stencils_15_ : D;
  coef_stencils_16_ : D;
  coef_stencils_17_ : D;
  coef_stencils_18_ : D;
  coef_stencils_19_ : D;
  coef_stencils_20_ : D;
  coef_stencils_21_ : D;
  coef_stencils_22_ : D;
  coef_stencils_23_ : D;
  coef_stencils_24_ : D;
  coef_stencils_25_ : D;
  epsilon_weno9_ : D;
  stencil_size_ : Z;
  downstream_stencil_size_ : Z }.

Arguments MkCoefficients {D}.

(** The sizes of the class are [unsigned int] constants, so an index
    expression converts the [int] offset and stride to [unsigned int] and is
    computed modulo [2^32]. *)
Definition to_unsigned (z : Z) : Z := (z mod 2 ^ 32)%Z.

Section Kernel.

Context {D : Type} {arith : Arithmetic D}.
Variable c : Coefficients D.

Local Open Scope arith_scope.

Local Notation "x <- e ;; k" :=
  (match e with Some x => k | None => None end)
  (at level 61, e at next level, right associativity).

(** [array[index]]; a read outside the array is undefined. *)
Definition read (array : list D) (index : Z) : option D :=
  nth_error array (Z.to_nat (to_unsigned index)).

(** Lines 88 to 96. *)
Definition window (array : list D) (evaluation_properties : Z * Z)
    : option (D * D * D * D * D * D * D * D * D) :=
  let e0 := fst evaluation_properties in
  let e1 := snd evaluation_properties in
  v1 <- read array (c.(downstream_stencil_size_) + e0 - 4 * e1)%Z ;;
  v2 <- read array (c.(downstream_stencil_size_) + e0 - 3 * e1)%Z ;;
  v3 <- read array (c.(downstream_stencil_size_) + e0 - 2 * e1)%Z ;;
  v4 <- read array (c.(downstream_stencil_size_) + e0 - 1 * e1)%Z ;;
  v5 <- read array (c.(downstream_stencil_size_) + e0)%Z ;;
  v6 <- read array (c.(downstream_stencil_size_) + e0 + 1 * e1)%Z ;;
  v7 <- read array (c.(downstream_stencil_size_) + e0 + 2 * e1)%Z ;;
  v8 <- read array (c.(downstream_stencil_size_) + e0 + 3 * e1)%Z ;;
  v9 <- read array (c.(downstream_stencil_size_) + e0 + 4 * e1)%Z ;;
  Some (v1, v2, v3, v4, v5, v6, v7, v8, v9).

(** Lines 98 to 137: the smoothness indicators before regularisation. *)
Definition smoothness (v1 v2 v3 v4 v5 v6 v7 v8 v9 : D) : D * D * D * D * D :=
  let s11 := c.(coef_smoothness_0_01_) * v1
      + c.(coef_smoothness_0_02_) * v2
      + c.(coef_smoothness_0_03_) * v3
      + c.(coef_smoothness_0_04_) * v4
      + c.(coef_smoothness_0_05_) * v5 in
  let s12 := c.(coef_smoothness_0_06_) * v2
      + c.(coef_smoothness_0_07_) * v3
      + c.(coef_smoothness_0_08_) * v4
      + c.(coef_smoothness_0_09_) * v5 in
  let s13 := c.(coef_smoothness_0_10_) * v3
      + c.(coef_smoothness_0_11_) * v4
      + c.(coef_smoothness_0_12_) * v5 in
  let s14 := c.(coef_smoothness_0_13_) * v4
      + c.(coef_smoothness_0_14_) * v5 in
  let s15 := c.(coef_smoothness_0_15_) * v5 in
  let s1 := v1 * s11 + v2 * s12 + v3 * s13 + v4 * s14 + v5 * s15 in
  let s21 := c.(coef_smoothness_1_01_) * v2
      + c.(coef_smoothness_1_02_) * v3
      + c.(coef_smoothness_1_03_) * v4
      + c.(coef_smoothness_1_04_) * v5
      + c.(coef_smoothness_1_05_) * v6 in
  let s22 := c.(coef_smoothness_1_06_) * v3
      + c.(coef_smoothness_1_07_) * v4
      + c.(coef_smoothness_1_08_) * v5
      + c.(coef_smoothness_1_09_) * v6 in
  let s23 := c.(coef_smoothness_1_10_) * v4
      + c.(coef_smoothness_1_11_) * v5
      + c.(coef_smoothness_1_12_) * v6 in
  let s24 := c.(coef_smoothness_1_13_) * v5
      + c.(coef_smoothness_1_14_) * v6 in
  let s25 := c.(coef_smoothness_1_15_) * v6 in
  let s2 := v2 * s21 + v3 * s22 + v4 * s23 + v5 * s24 + v6 * s25 in
  let s31 := c.(coef_smoothness_2_01_) * v3
      + c.(coef_smoothness_2_02_) * v4
      + c.(coef_smoothness_2_03_) * v5
      + c.(coef_smoothness_2_04_) * v6
      + c.(coef_smoothness_2_05_) * v7 in
  let s32 := c.(coef_smoothness_2_06_) * v4
      + c.(coef_smoothness_2_07_) * v5
      + c.(coef_smoothness_2_08_) * v6
      + c.(coef_smoothness_2_09_) * v7 in
  let s33 := c.(coef_smoothness_2_10_) * v5
      + c.(coef_smoothness_2_11_) * v6
      + c.(coef_smoothness_2_12_) * v7 in
  let s34 := c.(coef_smoothness_2_13_) * v6
      + c.(coef_smoothness_2_14_) * v7 in
  let s35 := c.(coef_smoothness_2_15_) * v7 in
  let s3 := v3 * s31 + v4 * s32 + v5 * s33 + v6 * s34 + v7 * s35 in
  let s41 := c.(coef_smoothness_3_01_) * v4
      + c.(coef_smoothness_3_02_) * v5
      + c.(coef_smoothness_3_03_) * v6
      + c.(coef_smoothness_3_04_) * v7
      + c.(coef_smoothness_3_05_) * v8 in
  let s42 := c.(coef_smoothness_3_06_) * v5
      + c.(coef_smoothness_3_07_) * v6
      + c.(coef_smoothness_3_08_) * v7
      + c.(coef_smoothness_3_09_) * v8 in
  let s43 := c.(coef_smoothness_3_10_) * v6
      + c.(coef_smoothness_3_11_) * v7
      + c.(coef_smoothness_3_12_) * v8 in
  let s44 := c.(coef_smoothness_3_13_) * v7
      + c.(coef_smoothness_3_14_) * v8 in
  let s45 := c.(coef_smoothness_3_15_) * v8 in
  let s4 := v4 * s41 + v5 * s42 + v6 * s43 + v7 * s44 + v8 * s45 in
  let s51 := c.(coef_smoothness_4_01_) * v5
      + c.(coef_smoothness_4_02_) * v6
      + c.(coef_smoothness_4_03_) * v7
      + c.(coef_smoothness_4_04_) * v8
      + c.(coef_smoothness_4_05_) * v9 in
  let s52 := c.(coef_smoothness_4_06_) * v6
      + c.(coef_smoothness_4_07_) * v7
      + c.(coef_smoothness_4_08_) * v8
      + c.(coef_smoothness_4_09_) * v9 in
  let s53 := c.(coef_smoothness_4_10_) * v7
      + c.(coef_smoothness_4_11_) * v8
      + c.(coef_smoothness_4_12_) * v9 in
  let s54 := c.(coef_smoothness_4_13_) * v8
      + c.(coef_smoothness_4_14_) * v9 in
  let s55 := c.(coef_smoothness_4_15_) * v9 in
  let s5 := v5 * s51 + v6 * s52 + v7 * s53 + v8 * s54 + v9 * s55 in
  (s1, s2, s3, s4, s5).

(** Lines 162 to 166: the weighted average of the five candidate values. *)
Definition weighted_average (w : D * D * D * D * D) (v1 v2 v3 v4 v5 v6 v7 v8 v9 : D) : D :=
  let '(w1, w2, w3, w4, w5) := w in
  w1 * (c.(coef_stencils_1_) * v1 + c.(coef_stencils_2_) * v2 + c.(coef_stencils_3_) * v3
          + c.(coef_stencils_4_) * v4 + c.(coef_stencils_5_) * v5)
  + w2 * (c.(coef_stencils_6_) * v2 + c.(coef_stencils_7_) * v3 + c.(coef_stencils_8_) * v4
          + c.(coef_stencils_9_) * v5 + c.(coef_stencils_10_) * v6)
  + w3 * (c.(coef_stencils_11_) * v3 + c.(coef_stencils_12_) * v4 + c.(coef_stencils_13_) * v5
          + c.(coef_stencils_14_) * v6 + c.(coef_stencils_15_) * v7)
  + w4 * (c.(coef_stencils_16_) * v4 + c.(coef_stencils_17_) * v5 + c.(coef_stencils_18_) * v6
          + c.(coef_stencils_19_) * v7 + c.(coef_stencils_20_) * v8)
  + w5 * (c.(coef_stencils_21_) * v5 + c.(coef_stencils_22_) * v6 + c.(coef_stencils_23_) * v7
          + c.(coef_stencils_24_) * v8 + c.(coef_stencils_25_) * v9).

(** The five candidate values the result averages (lines 162 to 166, the
    factors of [w1 .. w5]). *)
Definition candidates (v1 v2 v3 v4 v5 v6 v7 v8 v9 : D) : D * D * D * D * D :=
  (c.(coef_stencils_1_) * v1 + c.(coef_stencils_2_) * v2 + c.(coef_stencils_3_) * v3
   + c.(coef_stencils_4_) * v4 + c.(coef_stencils_5_) * v5,
   c.(coef_stencils_6_) * v2 + c.(coef_stencils_7_) * v3 + c.(coef_stencils_8_) * v4
   + c.(coef_stencils_9_) * v5 + c.(coef_stencils_10_) * v6,
   c.(coef_stencils_11_) * v3 + c.(coef_stencils_12_) * v4 + c.(coef_stencils_13_) * v5
   + c.(coef_stencils_14_) * v6 + c.(coef_stencils_15_) * v7,
   c.(coef_stencils_16_) * v4 + c.(coef_stencils_17_) * v5 + c.(coef_stencils_18_) * v6
   + c.(coef_stencils_19_) * v7 + c.(coef_stencils_20_) * v8,
   c.(coef_stencils_21_) * v5 + c.(coef_stencils_22_) * v6 + c.(coef_stencils_23_) * v7
   + c.(coef_stencils_24_) * v8 + c.(coef_stencils_25_) * v9).

(** Lines 140 to 144. *)
Definition add_epsilon (s : D * D * D * D * D) : D * D * D * D * D :=
  let '(s1, s2, s3, s4, s5) := s in
  (s1 + c.(epsilon_weno9_), s2 + c.(epsilon_weno9_), s3 + c.(epsilon_weno9_),
   s4 + c.(epsilon_weno9_), s5 + c.(epsilon_weno9_)).

(** Lines 147 to 151. *)
Definition alphas (s : D * D * D * D * D) : option (D * D * D * D * D) :=
  let '(s1, s2, s3, s4, s5) := s in
  a1 <- c.(coef_weights_1_) / (s1 * s1) ;;
  a2 <- c.(coef_weights_2_) / (s2 * s2) ;;
  a3 <- c.(coef_weights_3_) / (s3 * s3) ;;
  a4 <- c.(coef_weights_4_) / (s4 * s4) ;;
  a5 <- c.(coef_weights_5_) / (s5 * s5) ;;
  Some (a1, a2, a3, a4, a5).

(** Lines 153 to 159. *)
Definition normalize (a : D * D * D * D * D) : option (D * D * D * D * D) :=
  let '(a1, a2, a3, a4, a5) := a in
  one_a_sum <- arith_one / (a1 + a2 + a3 + a4 + a5) ;;
  Some (a1 * one_a_sum, a2 * one_a_sum, a3 * one_a_sum, a4 * one_a_sum,
        a5 * one_a_sum).

(** The weights [w1 .. w5] of a window. *)
Definition weights (v1 v2 v3 v4 v5 v6 v7 v8 v9 : D) : option (D * D * D * D * D) :=
  a <- alphas (add_epsilon (smoothness v1 v2 v3 v4 v5 v6 v7 v8 v9)) ;;
  normalize a.

(** The sum [w1 + w2 + w3 + w4 + w5] of the weights of a window. *)
Definition sum_of_weights (w : option (D * D * D * D * D)) : option D :=
  match w with
  | Some (w1, w2, w3, w4, w5) => Some (w1 + w2 + w3 + w4 + w5)
  | None => None
  end.

(** The kernel on the samples of its array.  The array of a call has
    [stencil_size_] samples ([stencil_array] below): its type is
    [std::array<double, stencil_size_>], so the size test of the checked
    build is false on every array a call can be given. *)
Definition ApplyImplementation (build : Build) (array : list D)
    (evaluation_properties : Z * Z) (cell_size : D) : Outcome D :=
  if is_checked build && (Z.of_nat (List.length array) <? c.(stencil_size_))%Z
  then Throw (logic_error "Stencil size in WENO9 is longer than provided Array")
  else
    match window array evaluation_properties with
    | None => Undefined
    | Some (v1, v2, v3, v4, v5, v6, v7, v8, v9) =>
        match weights v1 v2 v3 v4 v5 v6 v7 v8 v9 with
        | None => Undefined
        | Some w => Return (weighted_average w v1 v2 v3 v4 v5 v6 v7 v8 v9)
        end
    end.

End Kernel.

(** ** The call as a computation on memory

    The kernel is a [const] member function, its array a reference to
    [const] storage of the caller, its other arguments values, its
    variables locals.  [Memory] is what the program holds while the call
    runs: the storage of that array and everything else.  A computation
    takes the memory before to its outcome and the memory after; the
    statements of the kernel are computations: the array is read with
    [exec_load], its size with [exec_size]. *)

Section Execution.

Context {D : Type} {arith : Arithmetic D}.
Variable c : Coefficients D.
Variable Rest : Type.

Record Memory : Type := MkMemory { the_array : list D; the_rest : Rest }.

Definition Exec (A : Type) : Type := Memory -> Outcome A * Memory.

Definition exec_return {A : Type} (a : A) : Exec A := fun m => (Return a, m).

Definition exec_throw {A : Type} (e : Exception) : Exec A := fun m => (Throw e, m).

Definition exec_undefined {A : Type} : Exec A := fun m => (Undefined, m).

Definition exec_bind {A B : Type} (x : Exec A) (k : A -> Exec B) : Exec B :=
  fun m =>
    match x m with
    | (Return a, m') => k a m'
    | (Throw e, m') => (Throw e, m')
    | (Undefined, m') => (Undefined, m')
    end.

(** [array.size()] *)
Definition exec_size : Exec Z :=
  fun m => (Return (Z.of_nat (List.length (the_array m))), m).

(** [array[index]] *)
Definition exec_load (index : Z) : Exec D :=
  fun m =>
    match read (the_array m) index with
    | Some x => (Return x, m)
    | None => (Undefined, m)
    end.

Local Notation "x <- e ;; k" := (exec_bind e (fun x => k))
  (at level 61, e at next level, right associativity).

(** Lines 76 to 167, statement by statement. *)
Definition ApplyImplementation_exec (build : Build) (evaluation_properties : Z * Z)
    (cell_size : D) : Exec D :=
  let e0 := fst evaluation_properties in
  let e1 := snd evaluation_properties in
  _ <- (if is_checked build
        then n <- exec_size ;;
             if (n <? c.(stencil_size_))%Z
             then exec_throw
                    (logic_error "Stencil size in WENO9 is longer than provided Array")
             else exec_return tt
        else exec_return tt) ;;
  v1 <- exec_load (c.(downstream_stencil_size_) + e0 - 4 * e1)%Z ;;
  v2 <- exec_load (c.(downstream_stencil_size_) + e0 - 3 * e1)%Z ;;
  v3 <- exec_load (c.(downstream_stencil_size_) + e0 - 2 * e1)%Z ;;
  v4 <- exec_load (c.(downstream_stencil_size_) + e0 - 1 * e1)%Z ;;
  v5 <- exec_load (c.(downstream_stencil_size_) + e0)%Z ;;
  v6 <- exec_load (c.(downstream_stencil_size_) + e0 + 1 * e1)%Z ;;
  v7 <- exec_load (c.(downstream_stencil_size_) + e0 + 2 * e1)%Z ;;
  v8 <- exec_load (c.(downstream_stencil_size_) + e0 + 3 * e1)%Z ;;
  v9 <- exec_load (c.(downstream_stencil_size_) + e0 + 4 * e1)%Z ;;
  match weights c v1 v2 v3 v4 v5 v6 v7 v8 v9 with
  | None => exec_undefined
  | Some w => exec_return (weighted_average c w v1 v2 v3 v4 v5 v6 v7 v8 v9)
  end.

End Execution.

(** ** The window of a call *)

Section Window.

Context {D : Type}.
Variable c : Coefficients D.

(** Every index the kernel reads lies inside an array of [array_size]
    elements (and inside the range of [unsigned int]).  The nine indices are
    equally spaced, so the two extreme ones decide. *)
Definition window_in_range (array_size : nat) (evaluation_properties : Z * Z) : bool :=
  let e0 := fst evaluation_properties in
  let e1 := snd evaluation_properties in
  let bound := Z.min (Z.of_nat array_size) (2 ^ 32) in
  let first := (c.(downstream_stencil_size_) + e0 - 4 * e1)%Z in
  let last := (c.(downstream_stencil_size_) + e0 + 4 * e1)%Z in
  ((0 <=? first) && (first <? bound) && (0 <=? last) && (last <? bound))%Z.

(** The parameter type of the kernel is [std::array<double, stencil_size_>]:
    the arrays a call can be given have [stencil_size_] samples. *)
Definition stencil_array (array : list D) : Prop :=
  Z.of_nat (List.length array) = c.(stencil_size_).

(** The window is centred: as many samples before the central one as after
    it ([2n-1] samples for [n] samples per candidate). *)
Definition centred : Prop :=
  (c.(stencil_size_) = 2 * c.(downstream_stencil_size_) + 1 /\
   c.(stencil_size_) <= 2 ^ 32)%Z.

End Window.

(** ** Properties of the constants, in exact arithmetic *)

Section Constants.

Variable c : Coefficients R.

Local Open Scope R_scope.

Definition positive_epsilon : Prop := 0 < c.(epsilon_weno9_).

(** Each smoothness indicator is a nonnegative quadratic form. *)
Definition nonnegative_smoothness : Prop :=
  forall v1 v2 v3 v4 v5 v6 v7 v8 v9 : R,
    let '(s1, s2, s3, s4, s5) := smoothness c v1 v2 v3 v4 v5 v6 v7 v8 v9 in
    0 <= s1 /\ 0 <= s2 /\ 0 <= s3 /\ 0 <= s4 /\ 0 <= s5.

(** The smoothness indicators see differences of samples only: adding one
    value to every sample leaves them unchanged. *)
Definition shift_invariant_smoothness : Prop :=
  forall t v1 v2 v3 v4 v5 v6 v7 v8 v9 : R,
    smoothness c (v1 + t) (v2 + t) (v3 + t) (v4 + t) (v5 + t)
                 (v6 + t) (v7 + t) (v8 + t) (v9 + t)
    = smoothness c v1 v2 v3 v4 v5 v6 v7 v8 v9.

(** The coefficients of each candidate sum to one. *)
Definition unit_sum_candidates : Prop :=
  c.(coef_stencils_1_) + c.(coef_stencils_2_) + c.(coef_stencils_3_)
  + c.(coef_stencils_4_) + c.(coef_stencils_5_) = 1 /\
  c.(coef_stencils_6_) + c.(coef_stencils_7_) + c.(coef_stencils_8_)
  + c.(coef_stencils_9_) + c.(coef_stencils_10_) = 1 /\
  c.(coef_stencils_11_) + c.(coef_stencils_12_) + c.(coef_stencils_13_)
  + c.(coef_stencils_14_) + c.(coef_stencils_15_) = 1 /\
  c.(coef_stencils_16_) + c.(coef_stencils_17_) + c.(coef_stencils_18_)
  + c.(coef_stencils_19_) + c.(coef_stencils_20_) = 1 /\
  c.(coef_stencils_21_) + c.(coef_stencils_22_) + c.(coef_stencils_23_)
  + c.(coef_stencils_24_) + c.(coef_stencils_25_) = 1.

Definition positive_linear_weights : Prop :=
  0 < c.(coef_weights_1_) /\ 0 < c.(coef_weights_2_) /\ 0 < c.(coef_weights_3_) /\
  0 < c.(coef_weights_4_) /\ 0 < c.(coef_weights_5_).

(** Each candidate reconstruction reproduces affine data: its coefficients
    sum to one, and their first moment about the central sample is the
    position of the face, half a cell after it. *)
Definition affine_exact_candidates : Prop :=
  (c.(coef_stencils_1_) + c.(coef_stencils_2_) + c.(coef_stencils_3_) + c.(coef_stencils_4_) + c.(coef_stencils_5_) = 1 /\
   c.(coef_stencils_1_) * -4 + c.(coef_stencils_2_) * -3 + c.(coef_stencils_3_) * -2 + c.(coef_stencils_4_) * -1 + c.(coef_stencils_5_) * 0 = 1 / 2) /\
  (c.(coef_stencils_6_) + c.(coef_stencils_7_) + c.(coef_stencils_8_) + c.(coef_stencils_9_) + c.(coef_stencils_10_) = 1 /\
   c.(coef_stencils_6_) * -3 + c.(coef_stencils_7_) * -2 + c.(coef_stencils_8_) * -1 + c.(coef_stencils_9_) * 0 + c.(coef_stencils_10_) * 1 = 1 / 2) /\
  (c.(coef_stencils_11_) + c.(coef_stencils_12_) + c.(coef_stencils_13_) + c.(coef_stencils_14_) + c.(coef_stencils_15_) = 1 /\
   c.(coef_stencils_11_) * -2 + c.(coef_stencils_12_) * -1 + c.(coef_stencils_13_) * 0 + c.(coef_stencils_14_) * 1 + c.(coef_stencils_15_) * 2 = 1 / 2) /\
  (c.(coef_stencils_16_) + c.(coef_stencils_17_) + c.(coef_stencils_18_) + c.(coef_stencils_19_) + c.(coef_stencils_20_) = 1 /\
   c.(coef_stencils_16_) * -1 + c.(coef_stencils_17_) * 0 + c.(coef_stencils_18_) * 1 + c.(coef_stencils_19_) * 2 + c.(coef_stencils_20_) * 3 = 1 / 2) /\
  (c.(coef_stencils_21_) + c.(coef_stencils_22_) + c.(coef_stencils_23_) + c.(coef_stencils_24_) + c.(coef_stencils_25_) = 1 /\
   c.(coef_stencils_21_) * 0 + c.(coef_stencils_22_) * 1 + c.(coef_stencils_23_) * 2 + c.(coef_stencils_24_) * 3 + c.(coef_stencils_25_) * 4 = 1 / 2).

End Constants.

(** Modelled from the spec: the values of the constants, which [weno9.h]
    declares.  The spec calls them the scheme-specific constant
    coefficients, the optimal linear weights and the small regularisation
    constant of the nine-point scheme with five candidates of five samples:
    these are the constants of the ninth-order WENO scheme of Balsara and
    Shu, for a window of [2n-1 = 9] samples centred on the sample before the
    face; [epsilon_weno9_] is taken as [1e-10]. *)
Local Open Scope R_scope.

Definition balsara_shu : Coefficients R := {|
  coef_smoothness_0_01_ := 22658;
  coef_smoothness_0_02_ := -208501;
  coef_smoothness_0_03_ := 364863;
  coef_smoothness_0_04_ := -288007;
  coef_smoothness_0_05_ := 86329;
  coef_smoothness_0_06_ := 482963;
  coef_smoothness_0_07_ := -1704396;
  coef_smoothness_0_08_ := 1358458;
  coef_smoothness_0_09_ := -411487;
  coef_smoothness_0_10_ := 1521393;
  coef_smoothness_0_11_ := -2462076;
  coef_smoothness_0_12_ := 758823;
  coef_smoothness_0_13_ := 1020563;
  coef_smoothness_0_14_ := -649501;
  coef_smoothness_0_15_ := 107918;
  coef_smoothness_1_01_ := 6908;
  coef_smoothness_1_02_ := -60871;
  coef_smoothness_1_03_ := 99213;
  coef_smoothness_1_04_ := -70237;
  coef_smoothness_1_05_ := 18079;
  coef_smoothness_1_06_ := 138563;
  coef_smoothness_1_07_ := -464976;
  coef_smoothness_1_08_ := 337018;
  coef_smoothness_1_09_ := -88297;
  coef_smoothness_1_10_ := 406293;
  coef_smoothness_1_11_ := -611976;
  coef_smoothness_1_12_ := 165153;
  coef_smoothness_1_13_ := 242723;
  coef_smoothness_1_14_ := -140251;
  coef_smoothness_1_15_ := 22658;
  coef_smoothness_2_01_ := 6908;
  coef_smoothness_2_02_ := -51001;
  coef_smoothness_2_03_ := 67923;
  coef_smoothness_2_04_ := -38947;
  coef_smoothness_2_05_ := 8209;
  coef_smoothness_2_06_ := 104963;
  coef_smoothness_2_07_ := -299076;
  coef_smoothness_2_08_ := 179098;
  coef_smoothness_2_09_ := -38947;
  coef_smoothness_2_10_ := 231153;
  coef_smoothness_2_11_ := -299076;
  coef_smoothness_2_12_ := 67923;
  coef_smoothness_2_13_ := 104963;
  coef_smoothness_2_14_ := -51001;
  coef_smoothness_2_15_ := 6908;
  coef_smoothness_3_01_ := 22658;
  coef_smoothness_3_02_ := -140251;
  coef_smoothness_3_03_ := 165153;
  coef_smoothness_3_04_ := -88297;
  coef_smoothness_3_05_ := 18079;
  coef_smoothness_3_06_ := 242723;
  coef_smoothness_3_07_ := -611976;
  coef_smoothness_3_08_ := 337018;
  coef_smoothness_3_09_ := -70237;
  coef_smoothness_3_10_ := 406293;
  coef_smoothness_3_11_ := -464976;
  coef_smoothness_3_12_ := 99213;
  coef_smoothness_3_13_ := 138563;
  coef_smoothness_3_14_ := -60871;
  coef_smoothness_3_15_ := 6908;
  coef_smoothness_4_01_ := 107918;
  coef_smoothness_4_02_ := -649501;
  coef_smoothness_4_03_ := 758823;
  coef_smoothness_4_04_ := -411487;
  coef_smoothness_4_05_ := 86329;
  coef_smoothness_4_06_ := 1020563;
  coef_smoothness_4_07_ := -2462076;
  coef_smoothness_4_08_ := 1358458;
  coef_smoothness_4_09_ := -288007;
  coef_smoothness_4_10_ := 1521393;
  coef_smoothness_4_11_ := -1704396;
  coef_smoothness_4_12_ := 364863;
  coef_smoothness_4_13_ := 482963;
  coef_smoothness_4_14_ := -208501;
  coef_smoothness_4_15_ := 22658;
  coef_weights_1_ := 1 / 126;
  coef_weights_2_ := 10 / 63;
  coef_weights_3_ := 10 / 21;
  coef_weights_4_ := 20 / 63;
  coef_weights_5_ := 5 / 126;
  coef_stencils_1_ := 12 / 60;
  coef_stencils_2_ := -63 / 60;
  coef_stencils_3_ := 137 / 60;
  coef_stencils_4_ := -163 / 60;
  coef_stencils_5_ := 137 / 60;
  coef_stencils_6_ := -3 / 60;
  coef_stencils_7_ := 17 / 60;
  coef_stencils_8_ := -43 / 60;
  coef_stencils_9_ := 77 / 60;
  coef_stencils_10_ := 12 / 60;
  coef_stencils_11_ := 2 / 60;
  coef_stencils_12_ := -13 / 60;
  coef_stencils_13_ := 47 / 60;
  coef_stencils_14_ := 27 / 60;
  coef_stencils_15_ := -3 / 60;
  coef_stencils_16_ := -3 / 60;
  coef_stencils_17_ := 27 / 60;
  coef_stencils_18_ := 47 / 60;
  coef_stencils_19_ := -13 / 60;
  coef_stencils_20_ := 2 / 60;
  coef_stencils_21_ := 12 / 60;
  coef_stencils_22_ := 77 / 60;
  coef_stencils_23_ := -43 / 60;
  coef_stencils_24_ := 17 / 60;
  coef_stencils_25_ := -3 / 60;
  epsilon_weno9_ := 1 / 10000000000;
  stencil_size_ := 9%Z;
  downstream_stencil_size_ := 4%Z |}.

(** The same constants as binary64 values: each is the double nearest to
    the rational. *)
Definition balsara_shu_binary64 : Coefficients float := {|
  coef_smoothness_0_01_ := 22658%float;
  coef_smoothness_0_02_ := (-208501)%float;
  coef_smoothness_0_03_ := 364863%float;
  coef_smoothness_0_04_ := (-288007)%float;
  coef_smoothness_0_05_ := 86329%float;
  coef_smoothness_0_06_ := 482963%float;
  coef_smoothness_0_07_ := (-1704396)%float;
  coef_smoothness_0_08_ := 1358458%float;
  coef_smoothness_0_09_ := (-411487)%float;
  coef_smoothness_0_10_ := 1521393%float;
  coef_smoothness_0_11_ := (-2462076)%float;
  coef_smoothness_0_12_ := 758823%float;
  coef_smoothness_0_13_ := 1020563%float;
  coef_smoothness_0_14_ := (-649501)%float;
  coef_smoothness_0_15_ := 107918%float;
  coef_smoothness_1_01_ := 6908%float;
  coef_smoothness_1_02_ := (-60871)%float;
  coef_smoothness_1_03_ := 99213%float;
  coef_smoothness_1_04_ := (-70237)%float;
  coef_smoothness_1_05_ := 18079%float;
  coef_smoothness_1_06_ := 138563%float;
  coef_smoothness_1_07_ := (-464976)%float;
  coef_smoothness_1_08_ := 337018%float;
  coef_smoothness_1_09_ := (-88297)%float;
  coef_smoothness_1_10_ := 406293%float;
  coef_smoothness_1_11_ := (-611976)%float;
  coef_smoothness_1_12_ := 165153%float;
  coef_smoothness_1_13_ := 242723%float;
  coef_smoothness_1_14_ := (-140251)%float;
  coef_smoothness_1_15_ := 22658%float;
  coef_smoothness_2_01_ := 6908%float;
  coef_smoothness_2_02_ := (-51001)%float;
  coef_smoothness_2_03_ := 67923%float;
  coef_smoothness_2_04_ := (-38947)%float;
  coef_smoothness_2_05_ := 8209%float;
  coef_smoothness_2_06_ := 104963%float;
  coef_smoothness_2_07_ := (-299076)%float;
  coef_smoothness_2_08_ := 179098%float;
  coef_smoothness_2_09_ := (-38947)%float;
  coef_smoothness_2_10_ := 231153%float;
  coef_smoothness_2_11_ := (-299076)%float;
  coef_smoothness_2_12_ := 67923%float;
  coef_smoothness_2_13_ := 104963%float;
  coef_smoothness_2_14_ := (-51001)%float;
  coef_smoothness_2_15_ := 6908%float;
  coef_smoothness_3_01_ := 22658%float;
  coef_smoothness_3_02_ := (-140251)%float;
  coef_smoothness_3_03_ := 165153%float;
  coef_smoothness_3_04_ := (-88297)%float;
  coef_smoothness_3_05_ := 18079%float;
  coef_smoothness_3_06_ := 242723%float;
  coef_smoothness_3_07_ := (-611976)%float;
  coef_smoothness_3_08_ := 337018%float;
  coef_smoothness_3_09_ := (-70237)%float;
  coef_smoothness_3_10_ := 406293%float;
  coef_smoothness_3_11_ := (-464976)%float;
  coef_smoothness_3_12_ := 99213%float;
  coef_smoothness_3_13_ := 138563%float;
  coef_smoothness_3_14_ := (-60871)%float;
  coef_smoothness_3_15_ := 6908%float;
  coef_smoothness_4_01_ := 107918%float;
  coef_smoothness_4_02_ := (-649501)%float;
  coef_smoothness_4_03_ := 758823%float;
  coef_smoothness_4_04_ := (-411487)%float;
  coef_smoothness_4_05_ := 86329%float;
  coef_smoothness_4_06_ := 1020563%float;
  coef_smoothness_4_07_ := (-2462076)%float;
  coef_smoothness_4_08_ := 1358458%float;
  coef_smoothness_4_09_ := (-288007)%float;
  coef_smoothness_4_10_ := 1521393%float;
  coef_smoothness_4_11_ := (-1704396)%float;
  coef_smoothness_4_12_ := 364863%float;
  coef_smoothness_4_13_ := 482963%float;
  coef_smoothness_4_14_ := (-208501)%float;
  coef_smoothness_4_15_ := 22658%float;
  coef_weights_1_ := (1 / 126)%float;
  coef_weights_2_ := (10 / 63)%float;
  coef_weights_3_ := (10 / 21)%float;
  coef_weights_4_ := (20 / 63)%float;
  coef_weights_5_ := (5 / 126)%float;
  coef_stencils_1_ := (12 / 60)%float;
  coef_stencils_2_ := ((-63) / 60)%float;
  coef_stencils_3_ := (137 / 60)%float;
  coef_stencils_4_ := ((-163) / 60)%float;
  coef_stencils_5_ := (137 / 60)%float;
  coef_stencils_6_ := ((-3) / 60)%float;
  coef_stencils_7_ := (17 / 60)%float;
  coef_stencils_8_ := ((-43) / 60)%float;
  coef_stencils_9_ := (77 / 60)%float;
  coef_stencils_10_ := (12 / 60)%float;
  coef_stencils_11_ := (2 / 60)%float;
  coef_stencils_12_ := ((-13) / 60)%float;
  coef_stencils_13_ := (47 / 60)%float;
  coef_stencils_14_ := (27 / 60)%float;
  coef_stencils_15_ := ((-3) / 60)%float;
  coef_stencils_16_ := ((-3) / 60)%float;
  coef_stencils_17_ := (27 / 60)%float;
  coef_stencils_18_ := (47 / 60)%float;
  coef_stencils_19_ := ((-13) / 60)%float;
  coef_stencils_20_ := (2 / 60)%float;
  coef_stencils_21_ := (12 / 60)%float;
  coef_stencils_22_ := (77 / 60)%float;
  coef_stencils_23_ := ((-43) / 60)%float;
  coef_stencils_24_ := (17 / 60)%float;
  coef_stencils_25_ := ((-3) / 60)%float;
  epsilon_weno9_ := (1 / 10000000000)%float;
  stencil_size_ := 9%Z;
  downstream_stencil_size_ := 4%Z |}.

End WENO9.

(** * The interface block: what the constructors establish *)

Import InterfaceBlock.

Section Constructors.

Variables TCX TCY TCZ : nat.
Variable InterfaceParameterModelActive : bool.

Lemma store_same (r : BufferRef) (b : FieldBuffer) (blk : Block) :
  store r b blk r = b.
Proof.
  unfold store, BufferRef_eqb.
  destruct r as [m i]; simpl.
  rewrite Nat.eqb_refl.
  destruct m; reflexivity.
Qed.

Lemma store_other (r s : BufferRef) (b : FieldBuffer) (blk : Block) :
  BufferRef_eqb s r = false -> store r b blk s = blk s.
Proof. unfold store; intros ->; reflexivity. Qed.

Lemma SetSingleBuffer_same (r : BufferRef) (value : float) (blk : Block) (cell : Cell) :
  in_block TCX TCY TCZ cell = true ->
  SetSingleBuffer TCX TCY TCZ r value blk r cell = value.
Proof.
  intros Hin. unfold SetSingleBuffer.
  rewrite store_same, Hin. reflexivity.
Qed.

Lemma CopySingleBuffer_same (source : FieldBuffer) (r : BufferRef) (blk : Block)
    (cell : Cell) :
  in_block TCX TCY TCZ cell = true ->
  CopySingleBuffer TCX TCY TCZ source r blk r cell = source cell.
Proof.
  intros Hin. unfold CopySingleBuffer.
  rewrite store_same, Hin. reflexivity.
Qed.

(** The two constructors, unfolded into their sequence of single-buffer
    writes, and then read at one buffer and one cell of the block. *)
Ltac read_constructed Hin :=
  cbv [InterfaceBlock_field InterfaceBlock_uniform SetFieldBuffer
       GetBaseBuffer_all GetInitialBuffer_all GetInterfaceStateBuffer_all
       GetInterfaceParameterBuffer_all buffer_count seq fold_left
       GetBaseBuffer GetRightHandSideBuffer GetReinitializedBuffer GetInitialBuffer
       GetInterfaceStateBuffer GetInterfaceParameterBuffer
       DescriptionIndex StateIndex ParameterIndex];
  repeat first
    [ rewrite (SetSingleBuffer_same _ _ _ _ Hin)
    | rewrite (CopySingleBuffer_same _ _ _ _ Hin)
    | unfold SetSingleBuffer at 1; rewrite store_other by reflexivity
    | unfold CopySingleBuffer at 1; rewrite store_other by reflexivity ];
  try reflexivity.

(** C1. For every level-set field [levelset_initial] and whatever the storage
    held before, the constructor from a field leaves, in every cell of the
    block: the field in [RightHandSide.Levelset] and in
    [Reinitialized.Levelset]; zero in both base buffers, in
    [RightHandSide.VolumeFraction] and [Reinitialized.VolumeFraction], in
    both initial buffers, in every interface state buffer and, when the
    interface-parameter model is enabled, in every parameter buffer. *)
Theorem InterfaceBlock_field_establishes :
  forall (levelset_initial : FieldBuffer) (raw : Block) (cell : Cell),
    in_block TCX TCY TCZ cell = true ->
    let blk := InterfaceBlock_field TCX TCY TCZ InterfaceParameterModelActive
                 levelset_initial raw in
    blk (GetRightHandSideBuffer Levelset) cell = levelset_initial cell /\
    blk (GetReinitializedBuffer Levelset) cell = levelset_initial cell /\
    (forall d, blk (GetBaseBuffer d) cell = 0%float) /\
    blk (GetRightHandSideBuffer VolumeFraction) cell = 0%float /\
    blk (GetReinitializedBuffer VolumeFraction) cell = 0%float /\
    (forall d, blk (GetInitialBuffer d) cell = 0%float) /\
    (forall s, blk (GetInterfaceStateBuffer s) cell = 0%float) /\
    (InterfaceParameterModelActive = true ->
     forall p, blk (GetInterfaceParameterBuffer p) cell = 0%float).
Proof.
  intros F raw cell Hin blk; subst blk.
  repeat apply conj;
    [ | | intros [] | | | intros [] | intros [] | intros Hact [] ];
    destruct InterfaceParameterModelActive; try discriminate Hact;
    read_constructed Hin.
Qed.

(** C2. For every scalar [levelset_initial] and whatever the storage held
    before, the uniform-value constructor leaves, in every cell of the block:
    zero in [Base.Levelset]; in [Base.VolumeFraction] the value 1.0 when
    [levelset_initial > 0] and 0.0 otherwise, so 0.0 for a zero level set;
    the scalar in [RightHandSide.Levelset] and [Reinitialized.Levelset]; zero
    in the volume fractions of these two roles, in both initial buffers, in
    every interface state buffer and, when the interface-parameter model is
    enabled, in every parameter buffer. *)
Theorem InterfaceBlock_uniform_establishes :
  forall (levelset_initial : float) (raw : Block) (cell : Cell),
    in_block TCX TCY TCZ cell = true ->
    let blk := InterfaceBlock_uniform TCX TCY TCZ InterfaceParameterModelActive
                 levelset_initial raw in
    blk (GetBaseBuffer Levelset) cell = 0%float /\
    blk (GetBaseBuffer VolumeFraction) cell
      = (if PrimFloat.ltb 0%float levelset_initial then 1%float else 0%float) /\
    (levelset_initial = 0%float -> blk (GetBaseBuffer VolumeFraction) cell = 0%float) /\
    blk (GetRightHandSideBuffer Levelset) cell = levelset_initial /\
    blk (GetReinitializedBuffer Levelset) cell = levelset_initial /\
    blk (GetRightHandSideBuffer VolumeFraction) cell = 0%float /\
    blk (GetReinitializedBuffer VolumeFraction) cell = 0%float /\
    (forall d, blk (GetInitialBuffer d) cell = 0%float) /\
    (forall s, blk (GetInterfaceStateBuffer s) cell = 0%float) /\
    (InterfaceParameterModelActive = true ->
     forall p, blk (GetInterfaceParameterBuffer p) cell = 0%float).
Proof.
  intros v raw cell Hin blk; subst blk.
  repeat apply conj;
    [ | | intros -> | | | | | intros [] | intros [] | intros Hact [] ];
    destruct InterfaceParameterModelActive; try discriminate Hact;
    read_constructed Hin.
Qed.

End Constructors.

Lemma InterfaceBlock_field_establishes_witness :
  in_block 3 2 2 (1, 0, 1) = true /\
  InterfaceBlock_field 3 2 2 true sample_field sample_storage
    (GetRightHandSideBuffer Levelset) (1, 0, 1) = (-1)%float /\
  InterfaceBlock_field 3 2 2 true sample_field sample_storage
    (GetReinitializedBuffer Levelset) (1, 0, 1) = (-1)%float /\
  (forall d, InterfaceBlock_field 3 2 2 true sample_field sample_storage
               (GetBaseBuffer d) (1, 0, 1) = 0%float) /\
  (forall p, InterfaceBlock_field 3 2 2 true sample_field sample_storage
               (GetInterfaceParameterBuffer p) (1, 0, 1) = 0%float).
Proof.
  pose proof (InterfaceBlock_field_establishes 3 2 2 true sample_field
                sample_storage (1, 0, 1) eq_refl) as H.
  cbv zeta in H.
  destruct H as (Hrhs & Hrei & Hbase & _ & _ & _ & _ & Hpar).
  split; [reflexivity | ].
  split; [exact Hrhs | ].
  split; [exact Hrei | ].
  split; [exact Hbase | exact (Hpar eq_refl)].
Defined.

Lemma InterfaceBlock_uniform_establishes_witness :
  in_block 3 2 2 (2, 1, 0) = true /\
  InterfaceBlock_uniform 3 2 2 false 2.5%float sample_storage
    (GetBaseBuffer VolumeFraction) (2, 1, 0) = 1%float /\
  InterfaceBlock_uniform 3 2 2 false (-1)%float sample_storage
    (GetBaseBuffer VolumeFraction) (2, 1, 0) = 0%float /\
  InterfaceBlock_uniform 3 2 2 false 0%float sample_storage
    (GetBaseBuffer VolumeFraction) (2, 1, 0) = 0%float /\
  InterfaceBlock_uniform 3 2 2 false 2.5%float sample_storage
    (GetReinitializedBuffer Levelset) (2, 1, 0) = 2.5%float.
Proof.
  split; [reflexivity | ].
  split; [exact (proj1 (proj2 (InterfaceBlock_uniform_establishes 3 2 2 false
                                 2.5%float sample_storage (2, 1, 0) eq_refl))) | ].
  split; [exact (proj1 (proj2 (InterfaceBlock_uniform_establishes 3 2 2 false
                                 (-1)%float sample_storage (2, 1, 0) eq_refl))) | ].
  split; [exact (proj1 (proj2 (proj2 (InterfaceBlock_uniform_establishes 3 2 2 false
                                 0%float sample_storage (2, 1, 0) eq_refl))) eq_refl) | ].
  exact (proj1 (proj2 (proj2 (proj2 (proj2 (InterfaceBlock_uniform_establishes 3 2 2
           false 2.5%float sample_storage (2, 1, 0) eq_refl)))))).
Defined.

(** * The interface block: the flattened accessor *)

(** The claim that every request naming no existing buffer raises in the
    checked build fails: with the interface-parameter model disabled the
    request for the surface-tension-coefficient buffer names no existing
    buffer, and the checked build answers it with a reference, not an
    error. *)
Lemma GetBuffer_checked_parameter_request_not_refused :
  ~ (forall (InterfaceParameterModelActive : bool)
            (buffer_type : InterfaceBlockBufferType),
        names_existing_buffer InterfaceParameterModelActive buffer_type = false ->
        raises (GetBuffer Checked buffer_type) = true).
Proof.
  intros H.
  specialize (H false InterfaceParameterSurfaceTensionCoefficient eq_refl).
  discriminate H.
Qed.

(** C3, amended.  [GetBuffer] never consults the feature configuration.  In
    the checked build it raises exactly for the values outside the ten
    enumerators it lists; a request for the surface-tension-coefficient
    buffer is answered with the parameter buffer whether or not the
    interface-parameter model is enabled.  In the performance build no
    request raises, and every request that names no existing buffer is
    answered with the surface-tension-coefficient buffer.  A request that
    names a buffer is answered with that buffer in both builds. *)
Theorem GetBuffer_errors :
  forall (InterfaceParameterModelActive : bool) (buffer_type : InterfaceBlockBufferType),
    (raises (GetBuffer Checked buffer_type) = true <->
     exists raw, buffer_type = Unlisted raw) /\
    GetBuffer Checked InterfaceParameterSurfaceTensionCoefficient
      = Return (GetInterfaceParameterBuffer SurfaceTensionCoefficient) /\
    raises (GetBuffer Performance buffer_type) = false /\
    (names_existing_buffer InterfaceParameterModelActive buffer_type = false ->
     GetBuffer Performance buffer_type
       = Return (GetInterfaceParameterBuffer SurfaceTensionCoefficient)) /\
    (forall r build, named_buffer buffer_type = Some r ->
                     GetBuffer build buffer_type = Return r).
Proof.
  intros active buffer_type.
  split; [ | split; [reflexivity | split; [ | split ] ] ].
  - split.
    + destruct buffer_type; simpl; try discriminate. eauto.
    + intros [raw ->]. reflexivity.
  - destruct buffer_type; reflexivity.
  - destruct buffer_type, active; simpl; try discriminate; reflexivity.
  - intros r build Hr.
    destruct buffer_type, build; simpl in *; try discriminate;
      injection Hr as <-; reflexivity.
Qed.

(** C10. In both builds the flattened accessor [GetBuffer] returns, for each
    identifier, the reference the direct accessor of that role or kind
    returns; and [GetFieldBuffer], given the index of a description, state or
    parameter, returns the reference of the direct accessor of the role and
    description, of the state, or of the parameter. *)
Theorem flattened_accessors_agree :
  forall build : Build,
    GetBuffer build LevelsetBase = Return (GetBaseBuffer Levelset) /\
    GetBuffer build VolumeFractionBase = Return (GetBaseBuffer VolumeFraction) /\
    GetBuffer build LevelsetRightHandSide = Return (GetRightHandSideBuffer Levelset) /\
    GetBuffer build VolumeFractionRightHandSide
      = Return (GetRightHandSideBuffer VolumeFraction) /\
    GetBuffer build LevelsetReinitialized = Return (GetReinitializedBuffer Levelset) /\
    GetBuffer build VolumeFractionReinitialized
      = Return (GetReinitializedBuffer VolumeFraction) /\
    GetBuffer build InterfaceStateVelocity = Return (GetInterfaceStateBuffer Velocity) /\
    GetBuffer build InterfaceStatePressurePositive
      = Return (GetInterfaceStateBuffer PressurePositive) /\
    GetBuffer build InterfaceStatePressureNegative
      = Return (GetInterfaceStateBuffer PressureNegative) /\
    GetBuffer build InterfaceParameterSurfaceTensionCoefficient
      = Return (GetInterfaceParameterBuffer SurfaceTensionCoefficient) /\
    (forall d,
        GetFieldBuffer Description (DescriptionIndex d) Base = GetBaseBuffer d /\
        GetFieldBuffer Description (DescriptionIndex d) RightHandSide
          = GetRightHandSideBuffer d /\
        GetFieldBuffer Description (DescriptionIndex d) Reinitialized
          = GetReinitializedBuffer d /\
        GetFieldBuffer Description (DescriptionIndex d) Initial = GetInitialBuffer d) /\
    (forall s role,
        GetFieldBuffer States (StateIndex s) role = GetInterfaceStateBuffer s) /\
    (forall p role,
        GetFieldBuffer Parameters (ParameterIndex p) role
          = GetInterfaceParameterBuffer p).
Proof.
  intros build.
  repeat apply conj; try (destruct build; reflexivity).
  intros d; repeat apply conj; reflexivity.
Qed.

(** * WENO9: what holds in every arithmetic *)

Import WENO9.

Section AnyArithmetic.

Context {D : Type} {arith : Arithmetic D}.
Variable c : Coefficients D.

(** Reading the reversed array at the mirrored index reads the same
    element, also when the index wraps around or leaves the array. *)
Lemma read_rev (array : list D) (i j : Z) :
  (Z.of_nat (List.length array) <= 2 ^ 32)%Z ->
  (i + j = Z.of_nat (List.length array) - 1)%Z ->
  read (rev array) j = read array i.
Proof.
  intros Hbound Hsum. unfold read, to_unsigned.
  rewrite nth_error_rev.
  assert (Hi : (0 <= i mod 2 ^ 32 < 2 ^ 32)%Z) by (apply Z.mod_pos_bound; lia).
  assert (Hj : (0 <= j mod 2 ^ 32 < 2 ^ 32)%Z) by (apply Z.mod_pos_bound; lia).
  assert (Hmod : ((i mod 2 ^ 32 + j mod 2 ^ 32) mod 2 ^ 32
                  = (Z.of_nat (List.length array) - 1) mod 2 ^ 32)%Z)
    by (rewrite <- Z.add_mod by lia; now rewrite Hsum).
  destruct (Nat.ltb_spec (Z.to_nat (j mod 2 ^ 32)) (List.length array)) as [Hlt | Hge].
  - f_equal.
    assert (i mod 2 ^ 32 = Z.of_nat (List.length array) - 1 - j mod 2 ^ 32)%Z.
    { revert Hmod. generalize (i mod 2 ^ 32)%Z (j mod 2 ^ 32)%Z Hi Hj Hlt.
      intros u v Hu Hv Hlt' Hmod.
      Z.to_euclidean_division_equations; lia. }
    lia.
  - symmetry. apply nth_error_None.
    destruct (Nat.lt_ge_cases (Z.to_nat (i mod 2 ^ 32)) (List.length array))
      as [Hlt | Hge']; [ exfalso | exact Hge' ].
    revert Hmod. generalize (i mod 2 ^ 32)%Z (j mod 2 ^ 32)%Z Hi Hj Hge Hlt.
    intros u v Hu Hv Hge'' Hlt' Hmod.
    Z.to_euclidean_division_equations; lia.
Qed.

(** The window of the reversed array, read with the stride negated and the
    offset mirrored about the middle of the array, is the window of the
    array. *)
Lemma window_rev (array : list D) (e0 e1 : Z) :
  (Z.of_nat (List.length array) <= 2 ^ 32)%Z ->
  window c (rev array)
    (Z.of_nat (List.length array) - 1 - 2 * c.(downstream_stencil_size_) - e0, - e1)%Z
  = window c array (e0, e1).
Proof.
  intros Hbound. unfold window. cbn [fst snd].
  set (m := (Z.of_nat (List.length array) - 1
             - 2 * c.(downstream_stencil_size_) - e0)%Z).
  set (ds := c.(downstream_stencil_size_)).
  rewrite <- (read_rev array (ds + e0 - 4 * e1) (ds + m - 4 * - e1) Hbound ltac:(lia)).
  rewrite <- (read_rev array (ds + e0 - 3 * e1) (ds + m - 3 * - e1) Hbound ltac:(lia)).
  rewrite <- (read_rev array (ds + e0 - 2 * e1) (ds + m - 2 * - e1) Hbound ltac:(lia)).
  rewrite <- (read_rev array (ds + e0 - 1 * e1) (ds + m - 1 * - e1) Hbound ltac:(lia)).
  rewrite <- (read_rev array (ds + e0) (ds + m) Hbound ltac:(lia)).
  rewrite <- (read_rev array (ds + e0 + 1 * e1) (ds + m + 1 * - e1) Hbound ltac:(lia)).
  rewrite <- (read_rev array (ds + e0 + 2 * e1) (ds + m + 2 * - e1) Hbound ltac:(lia)).
  rewrite <- (read_rev array (ds + e0 + 3 * e1) (ds + m + 3 * - e1) Hbound ltac:(lia)).
  rewrite <- (read_rev array (ds + e0 + 4 * e1) (ds + m + 4 * - e1) Hbound ltac:(lia)).
  reflexivity.
Qed.

(** The kernel applied to the reversed array with the stride negated and the
    offset mirrored about the middle of the array returns what it returns on
    the array, whatever the length of the array. *)
Lemma ApplyImplementation_rev_general (build : Build) (array : list D) (e0 e1 : Z)
    (cell_size : D) :
  (Z.of_nat (List.length array) <= 2 ^ 32)%Z ->
  ApplyImplementation c build (rev array)
    (Z.of_nat (List.length array) - 1 - 2 * c.(downstream_stencil_size_) - e0, - e1)%Z
    cell_size
  = ApplyImplementation c build array (e0, e1) cell_size.
Proof.
  intros Hbound. unfold ApplyImplementation.
  rewrite length_rev, (window_rev array e0 e1 Hbound). reflexivity.
Qed.

(** A read inside the array returns the element at the index. *)
Lemma read_in_range (array : list D) (i : Z) :
  (0 <= i < Z.min (Z.of_nat (List.length array)) (2 ^ 32))%Z ->
  exists x, read array i = Some x /\ nth_error array (Z.to_nat i) = Some x.
Proof.
  intros Hi. unfold read, to_unsigned.
  rewrite Z.mod_small by lia.
  destruct (nth_error array (Z.to_nat i)) as [x | ] eqn:Hx.
  - exists x. split; reflexivity.
  - apply nth_error_None in Hx. lia.
Qed.

(** When the window lies inside the array the nine reads succeed, and
    return the elements at the nine equally spaced indices. *)
Lemma window_defined (array : list D) (e0 e1 : Z) :
  window_in_range c (List.length array) (e0, e1) = true ->
  exists v1 v2 v3 v4 v5 v6 v7 v8 v9 : D,
    window c array (e0, e1) = Some (v1, v2, v3, v4, v5, v6, v7, v8, v9) /\
    nth_error array (Z.to_nat (c.(downstream_stencil_size_) + e0 - 4 * e1)) = Some v1 /\
    nth_error array (Z.to_nat (c.(downstream_stencil_size_) + e0 - 3 * e1)) = Some v2 /\
    nth_error array (Z.to_nat (c.(downstream_stencil_size_) + e0 - 2 * e1)) = Some v3 /\
    nth_error array (Z.to_nat (c.(downstream_stencil_size_) + e0 - 1 * e1)) = Some v4 /\
    nth_error array (Z.to_nat (c.(downstream_stencil_size_) + e0)) = Some v5 /\
    nth_error array (Z.to_nat (c.(downstream_stencil_size_) + e0 + 1 * e1)) = Some v6 /\
    nth_error array (Z.to_nat (c.(downstream_stencil_size_) + e0 + 2 * e1)) = Some v7 /\
    nth_error array (Z.to_nat (c.(downstream_stencil_size_) + e0 + 3 * e1)) = Some v8 /\
    nth_error array (Z.to_nat (c.(downstream_stencil_size_) + e0 + 4 * e1)) = Some v9.
Proof.
  unfold window_in_range, window. cbn [fst snd].
  set (ds := c.(downstream_stencil_size_)).
  set (bound := Z.min (Z.of_nat (List.length array)) (2 ^ 32)).
  intros Hrange.
  apply andb_prop in Hrange as [Hrange Hhi'].
  apply andb_prop in Hrange as [Hrange Hhi].
  apply andb_prop in Hrange as [Hlo Hlo'].
  apply Z.leb_le in Hlo, Hhi. apply Z.ltb_lt in Hlo', Hhi'.
  destruct (read_in_range array (i := (ds + e0 - 4 * e1)%Z)) as (v1 & -> & H1); [ fold bound; lia | ].
  destruct (read_in_range array (i := (ds + e0 - 3 * e1)%Z)) as (v2 & -> & H2); [ fold bound; lia | ].
  destruct (read_in_range array (i := (ds + e0 - 2 * e1)%Z)) as (v3 & -> & H3); [ fold bound; lia | ].
  destruct (read_in_range array (i := (ds + e0 - 1 * e1)%Z)) as (v4 & -> & H4); [ fold bound; lia | ].
  destruct (read_in_range array (i := (ds + e0)%Z)) as (v5 & -> & H5); [ fold bound; lia | ].
  destruct (read_in_range array (i := (ds + e0 + 1 * e1)%Z)) as (v6 & -> & H6); [ fold bound; lia | ].
  destruct (read_in_range array (i := (ds + e0 + 2 * e1)%Z)) as (v7 & -> & H7); [ fold bound; lia | ].
  destruct (read_in_range array (i := (ds + e0 + 3 * e1)%Z)) as (v8 & -> & H8); [ fold bound; lia | ].
  destruct (read_in_range array (i := (ds + e0 + 4 * e1)%Z)) as (v9 & -> & H9); [ fold bound; lia | ].
  exists v1, v2, v3, v4, v5, v6, v7, v8, v9.
  repeat split; assumption.
Qed.

(** C8. For a centred window (an array of [2 * downstream_stencil_size_ + 1]
    samples) and every offset and stride, the kernel applied to the reversed
    window with the offset and the stride negated returns the face value of
    the original application. *)
Theorem ApplyImplementation_mirror :
  forall (build : Build) (array : list D) (e0 e1 : Z) (cell_size : D),
    centred c ->
    Z.of_nat (List.length array) = c.(stencil_size_) ->
    ApplyImplementation c build (rev array) (- e0, - e1)%Z cell_size
    = ApplyImplementation c build array (e0, e1) cell_size.
Proof.
  intros build array e0 e1 cell_size (Hsize & Hmax) Hlen.
  rewrite <- (ApplyImplementation_rev_general build array e0 e1 cell_size) by lia.
  do 3 f_equal. lia.
Qed.




End AnyArithmetic.

(** * WENO9: the call and the memory *)

Section ExecutionFacts.

Context {D : Type} {arith : Arithmetic D}.
Variable c : Coefficients D.
Variable Rest : Type.

(** The computation leaves the memory as it was and its outcome is the
    kernel on the samples of the array. *)
Lemma ApplyImplementation_exec_outcome (build : Build) (evaluation_properties : Z * Z)
    (cell_size : D) (m : @Memory D Rest) :
  ApplyImplementation_exec c build evaluation_properties cell_size m
  = (ApplyImplementation c build (the_array m) evaluation_properties cell_size, m).
Proof.
  unfold ApplyImplementation_exec, ApplyImplementation, window.
  unfold exec_bind at 1.
  destruct build; cbn [is_checked andb].
  - unfold exec_bind at 1, exec_size.
    destruct (Z.of_nat (List.length (the_array m)) <? c.(stencil_size_))%Z;
      [ reflexivity | ].
    unfold exec_return at 1.
    repeat (unfold exec_bind at 1, exec_load at 1;
            match goal with
            | |- context [read (the_array m) ?i] =>
                destruct (read (the_array m) i); [ | reflexivity ]
            end).
    match goal with
    | |- context [weights c ?a ?b ?d ?e ?f ?g ?h ?i ?j] =>
        destruct (weights c a b d e f g h i j); reflexivity
    end.
  - unfold exec_return at 1.
    repeat (unfold exec_bind at 1, exec_load at 1;
            match goal with
            | |- context [read (the_array m) ?i] =>
                destruct (read (the_array m) i); [ | reflexivity ]
            end).
    match goal with
    | |- context [weights c ?a ?b ?d ?e ?f ?g ?h ?i ?j] =>
        destruct (weights c a b d e f g h i j); reflexivity
    end.
Qed.

(** C9. A call modifies nothing: whatever its outcome, the memory after the
    call, the array and everything else, is the memory before.  And its
    outcome is a function of the build, the nine samples of the window and
    the offset and stride: two calls with the same window and the same
    offset and stride return the same outcome, whatever else their memories
    hold and whatever their two grid spacings are. *)
Theorem ApplyImplementation_exec_pure :
  forall (build : Build) (evaluation_properties : Z * Z) (cell_size cell_size' : D)
         (m m' : @Memory D Rest),
    stencil_array c (the_array m) ->
    stencil_array c (the_array m') ->
    window c (the_array m) evaluation_properties
    = window c (the_array m') evaluation_properties ->
    snd (ApplyImplementation_exec c build evaluation_properties cell_size m) = m /\
    snd (ApplyImplementation_exec c build evaluation_properties cell_size' m') = m' /\
    fst (ApplyImplementation_exec c build evaluation_properties cell_size m)
    = fst (ApplyImplementation_exec c build evaluation_properties cell_size' m') /\
    fst (ApplyImplementation_exec c build evaluation_properties cell_size m)
    = fst (ApplyImplementation_exec c build evaluation_properties cell_size' m).
Proof.
  intros build ep cell_size cell_size' m m' Hsize Hsize' Hwin.
  rewrite !ApplyImplementation_exec_outcome. cbn [fst snd].
  repeat apply conj; try reflexivity.
  unfold stencil_array in Hsize, Hsize'.
  unfold ApplyImplementation. rewrite Hsize, Hsize', Hwin. reflexivity.
Qed.

End ExecutionFacts.

(** * WENO9 in exact arithmetic *)

Section ExactArithmetic.

Variable c : Coefficients R.

Local Open Scope R_scope.

Lemma exact_div_defined (x y : R) : y <> 0 -> arith_div x y = Some (x / y).
Proof.
  intros Hy. cbn. destruct (Req_dec_T y 0) as [H0 | _]; [ contradiction | reflexivity ].
Qed.

Lemma square_nonzero (s : R) : 0 < s -> s * s <> 0.
Proof. intros Hs. apply Rgt_not_eq. apply Rmult_lt_0_compat; exact Hs. Qed.

Lemma alpha_positive (d s : R) : 0 < d -> 0 < s -> 0 < d / (s * s).
Proof.
  intros Hd Hs. apply Rdiv_lt_0_compat; [ exact Hd | ].
  apply Rmult_lt_0_compat; exact Hs.
Qed.

(** The regularised indicators are at least [epsilon_weno9_]. *)
Lemma add_epsilon_positive (v1 v2 v3 v4 v5 v6 v7 v8 v9 s1 s2 s3 s4 s5 : R) :
  positive_epsilon c -> nonnegative_smoothness c ->
  add_epsilon c (smoothness c v1 v2 v3 v4 v5 v6 v7 v8 v9) = (s1, s2, s3, s4, s5) ->
  0 < s1 /\ 0 < s2 /\ 0 < s3 /\ 0 < s4 /\ 0 < s5.
Proof.
  intros Heps Hsm.
  specialize (Hsm v1 v2 v3 v4 v5 v6 v7 v8 v9).
  destruct (smoothness c v1 v2 v3 v4 v5 v6 v7 v8 v9) as [[[[b1 b2] b3] b4] b5].
  destruct Hsm as (H1 & H2 & H3 & H4 & H5).
  unfold add_epsilon, positive_epsilon in *. cbn.
  intros [= <- <- <- <- <-]. repeat split; lra.
Qed.

Lemma alphas_defined (s1 s2 s3 s4 s5 : R) :
  0 < s1 -> 0 < s2 -> 0 < s3 -> 0 < s4 -> 0 < s5 ->
  alphas c (s1, s2, s3, s4, s5)
  = Some (c.(coef_weights_1_) / (s1 * s1), c.(coef_weights_2_) / (s2 * s2),
          c.(coef_weights_3_) / (s3 * s3), c.(coef_weights_4_) / (s4 * s4),
          c.(coef_weights_5_) / (s5 * s5)).
Proof.
  intros H1 H2 H3 H4 H5. unfold alphas.
  change (arith_mul ?x ?y) with (x * y).
  rewrite !exact_div_defined by (apply square_nonzero; assumption).
  reflexivity.
Qed.

Lemma normalize_defined (a1 a2 a3 a4 a5 : R) :
  a1 + a2 + a3 + a4 + a5 <> 0 ->
  normalize (a1, a2, a3, a4, a5)
  = Some (a1 * (1 / (a1 + a2 + a3 + a4 + a5)), a2 * (1 / (a1 + a2 + a3 + a4 + a5)),
          a3 * (1 / (a1 + a2 + a3 + a4 + a5)), a4 * (1 / (a1 + a2 + a3 + a4 + a5)),
          a5 * (1 / (a1 + a2 + a3 + a4 + a5))).
Proof.
  intros Hsum. unfold normalize.
  change (arith_add ?x ?y) with (x + y).
  change (@arith_one R exact_reals) with 1.
  rewrite exact_div_defined by exact Hsum.
  reflexivity.
Qed.

(** The weights of a window: defined, positive, of sum one. *)
Lemma weights_defined (v1 v2 v3 v4 v5 v6 v7 v8 v9 : R) :
  positive_epsilon c -> nonnegative_smoothness c -> positive_linear_weights c ->
  exists w1 w2 w3 w4 w5 : R,
    weights c v1 v2 v3 v4 v5 v6 v7 v8 v9 = Some (w1, w2, w3, w4, w5) /\
    w1 + w2 + w3 + w4 + w5 = 1.
Proof.
  intros Heps Hsm (Hd1 & Hd2 & Hd3 & Hd4 & Hd5).
  unfold weights.
  destruct (add_epsilon c (smoothness c v1 v2 v3 v4 v5 v6 v7 v8 v9))
    as [[[[s1 s2] s3] s4] s5] eqn:Hs.
  destruct (add_epsilon_positive Heps Hsm Hs)
    as (H1 & H2 & H3 & H4 & H5).
  rewrite alphas_defined by assumption.
  pose proof (alpha_positive Hd1 H1) as Ha1.
  pose proof (alpha_positive Hd2 H2) as Ha2.
  pose proof (alpha_positive Hd3 H3) as Ha3.
  pose proof (alpha_positive Hd4 H4) as Ha4.
  pose proof (alpha_positive Hd5 H5) as Ha5.
  set (a1 := c.(coef_weights_1_) / (s1 * s1)) in *.
  set (a2 := c.(coef_weights_2_) / (s2 * s2)) in *.
  set (a3 := c.(coef_weights_3_) / (s3 * s3)) in *.
  set (a4 := c.(coef_weights_4_) / (s4 * s4)) in *.
  set (a5 := c.(coef_weights_5_) / (s5 * s5)) in *.
  assert (Hsum : a1 + a2 + a3 + a4 + a5 <> 0) by lra.
  rewrite normalize_defined by exact Hsum.
  do 5 eexists. split; [ reflexivity | ].
  field. exact Hsum.
Qed.

(** Weights of sum one applied to affine samples return the affine value
    half a stride after the central sample. *)
Lemma weighted_average_affine (w1 w2 w3 w4 w5 A B : R) :
  affine_exact_candidates c ->
  w1 + w2 + w3 + w4 + w5 = 1 ->
  weighted_average c (w1, w2, w3, w4, w5)
    (A - 4 * B) (A - 3 * B) (A - 2 * B) (A - 1 * B) A
    (A + 1 * B) (A + 2 * B) (A + 3 * B) (A + 4 * B)
  = A + B / 2.
Proof.
  intros ((S1 & M1) & (S2 & M2) & (S3 & M3) & (S4 & M4) & (S5 & M5)) Hw.
  unfold weighted_average.
  cbv [arith_add arith_mul exact_reals].
  match goal with
  | |- ?w1' * ?r1 + ?w2' * ?r2 + ?w3' * ?r3 + ?w4' * ?r4 + ?w5' * ?r5 = _ =>
      assert (E1 : r1 = A + B / 2);
      [ | assert (E2 : r2 = A + B / 2);
          [ | assert (E3 : r3 = A + B / 2);
              [ | assert (E4 : r4 = A + B / 2);
                  [ | assert (E5 : r5 = A + B / 2) ] ] ] ]
  end.
  - transitivity
      (A * (c.(coef_stencils_1_) + c.(coef_stencils_2_) + c.(coef_stencils_3_)
            + c.(coef_stencils_4_) + c.(coef_stencils_5_))
       + B * (c.(coef_stencils_1_) * -4 + c.(coef_stencils_2_) * -3
              + c.(coef_stencils_3_) * -2 + c.(coef_stencils_4_) * -1
              + c.(coef_stencils_5_) * 0)); [ ring | rewrite S1, M1; field ].
  - transitivity
      (A * (c.(coef_stencils_6_) + c.(coef_stencils_7_) + c.(coef_stencils_8_)
            + c.(coef_stencils_9_) + c.(coef_stencils_10_))
       + B * (c.(coef_stencils_6_) * -3 + c.(coef_stencils_7_) * -2
              + c.(coef_stencils_8_) * -1 + c.(coef_stencils_9_) * 0
              + c.(coef_stencils_10_) * 1)); [ ring | rewrite S2, M2; field ].
  - transitivity
      (A * (c.(coef_stencils_11_) + c.(coef_stencils_12_) + c.(coef_stencils_13_)
            + c.(coef_stencils_14_) + c.(coef_stencils_15_))
       + B * (c.(coef_stencils_11_) * -2 + c.(coef_stencils_12_) * -1
              + c.(coef_stencils_13_) * 0 + c.(coef_stencils_14_) * 1
              + c.(coef_stencils_15_) * 2)); [ ring | rewrite S3, M3; field ].
  - transitivity
      (A * (c.(coef_stencils_16_) + c.(coef_stencils_17_) + c.(coef_stencils_18_)
            + c.(coef_stencils_19_) + c.(coef_stencils_20_))
       + B * (c.(coef_stencils_16_) * -1 + c.(coef_stencils_17_) * 0
              + c.(coef_stencils_18_) * 1 + c.(coef_stencils_19_) * 2
              + c.(coef_stencils_20_) * 3)); [ ring | rewrite S4, M4; field ].
  - transitivity
      (A * (c.(coef_stencils_21_) + c.(coef_stencils_22_) + c.(coef_stencils_23_)
            + c.(coef_stencils_24_) + c.(coef_stencils_25_))
       + B * (c.(coef_stencils_21_) * 0 + c.(coef_stencils_22_) * 1
              + c.(coef_stencils_23_) * 2 + c.(coef_stencils_24_) * 3
              + c.(coef_stencils_25_) * 4)); [ ring | rewrite S5, M5; field ].
  - rewrite E1, E2, E3, E4, E5.
    transitivity ((w1 + w2 + w3 + w4 + w5) * (A + B / 2)); [ ring | ].
    rewrite Hw. ring.
Qed.

(** C7, amended.  In exact arithmetic, for every window of nine real
    samples, when the smoothness indicators are nonnegative quadratic forms,
    [epsilon_weno9_] is positive and the linear weights are positive: every
    regularised indicator is positive, so no square [s_i * s_i] is zero; the
    five quotients [a_i] are defined and their sum is not zero; and the
    kernel returns a value on every array that contains the window. *)
Theorem ApplyImplementation_divisors_nonzero :
  positive_epsilon c -> nonnegative_smoothness c -> positive_linear_weights c ->
  forall v1 v2 v3 v4 v5 v6 v7 v8 v9 s1 s2 s3 s4 s5 : R,
    add_epsilon c (smoothness c v1 v2 v3 v4 v5 v6 v7 v8 v9) = (s1, s2, s3, s4, s5) ->
    (0 < s1 /\ 0 < s2 /\ 0 < s3 /\ 0 < s4 /\ 0 < s5) /\
    (s1 * s1 <> 0 /\ s2 * s2 <> 0 /\ s3 * s3 <> 0 /\ s4 * s4 <> 0 /\ s5 * s5 <> 0) /\
    (exists a1 a2 a3 a4 a5 : R,
        alphas c (s1, s2, s3, s4, s5) = Some (a1, a2, a3, a4, a5) /\
        a1 + a2 + a3 + a4 + a5 <> 0) /\
    (forall (build : Build) (array : list R) (e0 e1 : Z) (cell_size : R),
        (c.(stencil_size_) <= Z.of_nat (List.length array))%Z ->
        window_in_range c (List.length array) (e0, e1) = true ->
        exists face : R,
          ApplyImplementation c build array (e0, e1) cell_size = Return face).
Proof.
  intros Heps Hsm Hd v1 v2 v3 v4 v5 v6 v7 v8 v9 s1 s2 s3 s4 s5 Hs.
  destruct (add_epsilon_positive Heps Hsm Hs)
    as (H1 & H2 & H3 & H4 & H5).
  split; [ repeat split; assumption | ].
  split; [ repeat split; apply square_nonzero; assumption | ].
  split.
  - rewrite alphas_defined by assumption.
    destruct Hd as (Hd1 & Hd2 & Hd3 & Hd4 & Hd5).
    do 5 eexists. split; [ reflexivity | ].
    pose proof (alpha_positive Hd1 H1). pose proof (alpha_positive Hd2 H2).
    pose proof (alpha_positive Hd3 H3). pose proof (alpha_positive Hd4 H4).
    pose proof (alpha_positive Hd5 H5). lra.
  - intros build array e0 e1 cell_size Hlen Hrange.
    unfold ApplyImplementation.
    replace (Z.of_nat (List.length array) <? c.(stencil_size_))%Z with false
      by (symmetry; apply Z.ltb_ge; exact Hlen).
    rewrite andb_false_r.
    destruct (window_defined c array e0 e1 Hrange)
      as (x1 & x2 & x3 & x4 & x5 & x6 & x7 & x8 & x9 & -> & _).
    destruct (weights_defined x1 x2 x3 x4 x5 x6 x7 x8 x9 Heps Hsm Hd)
      as (w1 & w2 & w3 & w4 & w5 & -> & _).
    eexists. reflexivity.
Qed.

(** C4, amended.  In exact arithmetic, for every window of nine real
    samples, a flat one included, when the smoothness indicators are
    nonnegative quadratic forms, [epsilon_weno9_] is positive and the linear
    weights are positive: the five normalised weights are defined and their
    sum is one. *)
Theorem weights_sum_to_one :
  positive_epsilon c -> nonnegative_smoothness c -> positive_linear_weights c ->
  forall v1 v2 v3 v4 v5 v6 v7 v8 v9 : R,
    (exists w1 w2 w3 w4 w5 : R,
        weights c v1 v2 v3 v4 v5 v6 v7 v8 v9 = Some (w1, w2, w3, w4, w5) /\
        w1 + w2 + w3 + w4 + w5 = 1) /\
    (exists w1 w2 w3 w4 w5 : R,
        weights c v1 v1 v1 v1 v1 v1 v1 v1 v1 = Some (w1, w2, w3, w4, w5) /\
        w1 + w2 + w3 + w4 + w5 = 1).
Proof.
  intros Heps Hsm Hd v1 v2 v3 v4 v5 v6 v7 v8 v9.
  split; apply weights_defined; assumption.
Qed.

(** C5, amended.  In exact arithmetic, when [epsilon_weno9_] is positive,
    the smoothness indicators are nonnegative, the linear weights are
    positive and every candidate reconstruction is exact on affine data:
    for every array of at least [stencil_size_] affine samples [a + b * k]
    and every offset and stride whose window lies in the array, the kernel
    returns, in both builds, the affine value at the face, half a stride
    after the central sample.  The first three conditions make the weights
    defined; the value of the indicators plays no other part. *)
Theorem ApplyImplementation_affine_exact :
  positive_epsilon c -> nonnegative_smoothness c -> positive_linear_weights c ->
  affine_exact_candidates c ->
  forall (build : Build) (array : list R) (e0 e1 : Z) (a b cell_size : R),
    (c.(stencil_size_) <= Z.of_nat (List.length array))%Z ->
    window_in_range c (List.length array) (e0, e1) = true ->
    (forall (k : nat) (x : R), nth_error array k = Some x -> x = a + b * INR k) ->
    ApplyImplementation c build array (e0, e1) cell_size
    = Return (a + b * (IZR (c.(downstream_stencil_size_) + e0) + IZR e1 / 2)).
Proof.
  intros Heps Hsm Hd Haff build array e0 e1 a b cell_size Hlen Hrange Harr.
  unfold ApplyImplementation.
  replace (Z.of_nat (List.length array) <? c.(stencil_size_))%Z with false
    by (symmetry; apply Z.ltb_ge; exact Hlen).
  rewrite andb_false_r.
  destruct (window_defined c array e0 e1 Hrange)
    as (x1 & x2 & x3 & x4 & x5 & x6 & x7 & x8 & x9 & -> &
        N1 & N2 & N3 & N4 & N5 & N6 & N7 & N8 & N9).
  destruct (weights_defined x1 x2 x3 x4 x5 x6 x7 x8 x9 Heps Hsm Hd)
    as (w1 & w2 & w3 & w4 & w5 & -> & Hw).
  f_equal.
  assert (Hin : forall i : Z, (0 <= i)%Z -> forall x, nth_error array (Z.to_nat i) = Some x ->
                  x = a + b * IZR i).
  { intros i Hi x Hx. rewrite (Harr _ _ Hx), INR_IZR_INZ, Z2Nat.id by exact Hi.
    reflexivity. }
  unfold window_in_range in Hrange. cbn [fst snd] in Hrange.
  apply andb_prop in Hrange as [Hrange Hhi'].
  apply andb_prop in Hrange as [Hrange Hhi].
  apply andb_prop in Hrange as [Hlo Hlo'].
  apply Z.leb_le in Hlo, Hhi.
  set (ds := c.(downstream_stencil_size_)) in *.
  apply Hin in N1, N2, N3, N4, N5, N6, N7, N8, N9; try lia.
  set (A := a + b * IZR (ds + e0)).
  set (B := b * IZR e1).
  replace x1 with (A - 4 * B)
    by (rewrite N1; unfold A, B; rewrite !minus_IZR, !plus_IZR, !mult_IZR; ring).
  replace x2 with (A - 3 * B)
    by (rewrite N2; unfold A, B; rewrite !minus_IZR, !plus_IZR, !mult_IZR; ring).
  replace x3 with (A - 2 * B)
    by (rewrite N3; unfold A, B; rewrite !minus_IZR, !plus_IZR, !mult_IZR; ring).
  replace x4 with (A - 1 * B)
    by (rewrite N4; unfold A, B; rewrite !minus_IZR, !plus_IZR, !mult_IZR; ring).
  replace x5 with A by (rewrite N5; reflexivity).
  replace x6 with (A + 1 * B)
    by (rewrite N6; unfold A, B; rewrite !plus_IZR, !mult_IZR; ring).
  replace x7 with (A + 2 * B)
    by (rewrite N7; unfold A, B; rewrite !plus_IZR, !mult_IZR; ring).
  replace x8 with (A + 3 * B)
    by (rewrite N8; unfold A, B; rewrite !plus_IZR, !mult_IZR; ring).
  replace x9 with (A + 4 * B)
    by (rewrite N9; unfold A, B; rewrite !plus_IZR, !mult_IZR; ring).
  rewrite (@weighted_average_affine w1 w2 w3 w4 w5 A B Haff Hw).
  unfold A, B. field.
Qed.

End ExactArithmetic.

(** * The constants of Balsara and Shu *)

Section BalsaraShu.

Local Open Scope R_scope.

Ltac constants :=
  cbv [balsara_shu
       coef_smoothness_0_01_ coef_smoothness_0_02_ coef_smoothness_0_03_
       coef_smoothness_0_04_ coef_smoothness_0_05_ coef_smoothness_0_06_
       coef_smoothness_0_07_ coef_smoothness_0_08_ coef_smoothness_0_09_
       coef_smoothness_0_10_ coef_smoothness_0_11_ coef_smoothness_0_12_
       coef_smoothness_0_13_ coef_smoothness_0_14_ coef_smoothness_0_15_
       coef_smoothness_1_01_ coef_smoothness_1_02_ coef_smoothness_1_03_
       coef_smoothness_1_04_ coef_smoothness_1_05_ coef_smoothness_1_06_
       coef_smoothness_1_07_ coef_smoothness_1_08_ coef_smoothness_1_09_
       coef_smoothness_1_10_ coef_smoothness_1_11_ coef_smoothness_1_12_
       coef_smoothness_1_13_ coef_smoothness_1_14_ coef_smoothness_1_15_
       coef_smoothness_2_01_ coef_smoothness_2_02_ coef_smoothness_2_03_
       coef_smoothness_2_04_ coef_smoothness_2_05_ coef_smoothness_2_06_
       coef_smoothness_2_07_ coef_smoothness_2_08_ coef_smoothness_2_09_
       coef_smoothness_2_10_ coef_smoothness_2_11_ coef_smoothness_2_12_
       coef_smoothness_2_13_ coef_smoothness_2_14_ coef_smoothness_2_15_
       coef_smoothness_3_01_ coef_smoothness_3_02_ coef_smoothness_3_03_
       coef_smoothness_3_04_ coef_smoothness_3_05_ coef_smoothness_3_06_
       coef_smoothness_3_07_ coef_smoothness_3_08_ coef_smoothness_3_09_
       coef_smoothness_3_10_ coef_smoothness_3_11_ coef_smoothness_3_12_
       coef_smoothness_3_13_ coef_smoothness_3_14_ coef_smoothness_3_15_
       coef_smoothness_4_01_ coef_smoothness_4_02_ coef_smoothness_4_03_
       coef_smoothness_4_04_ coef_smoothness_4_05_ coef_smoothness_4_06_
       coef_smoothness_4_07_ coef_smoothness_4_08_ coef_smoothness_4_09_
       coef_smoothness_4_10_ coef_smoothness_4_11_ coef_smoothness_4_12_
       coef_smoothness_4_13_ coef_smoothness_4_14_ coef_smoothness_4_15_
       coef_weights_1_ coef_weights_2_ coef_weights_3_ coef_weights_4_ coef_weights_5_
       coef_stencils_1_ coef_stencils_2_ coef_stencils_3_ coef_stencils_4_
       coef_stencils_5_ coef_stencils_6_ coef_stencils_7_ coef_stencils_8_
       coef_stencils_9_ coef_stencils_10_ coef_stencils_11_ coef_stencils_12_
       coef_stencils_13_ coef_stencils_14_ coef_stencils_15_ coef_stencils_16_
       coef_stencils_17_ coef_stencils_18_ coef_stencils_19_ coef_stencils_20_
       coef_stencils_21_ coef_stencils_22_ coef_stencils_23_ coef_stencils_24_
       coef_stencils_25_ epsilon_weno9_ stencil_size_ downstream_stencil_size_].

Lemma balsara_shu_positive_epsilon : positive_epsilon balsara_shu.
Proof. unfold positive_epsilon. constants. lra. Qed.

Lemma balsara_shu_positive_linear_weights : positive_linear_weights balsara_shu.
Proof. unfold positive_linear_weights. constants. repeat split; lra. Qed.

Lemma balsara_shu_affine_exact_candidates : affine_exact_candidates balsara_shu.
Proof. unfold affine_exact_candidates. constants. repeat split; lra. Qed.

(** A sum of four squares with nonnegative factors is nonnegative. *)
Lemma four_squares_nonnegative (k1 k2 k3 k4 x1 x2 x3 x4 : R) :
  0 <= k1 -> 0 <= k2 -> 0 <= k3 -> 0 <= k4 ->
  0 <= k1 * (x1 * x1) + k2 * (x2 * x2) + k3 * (x3 * x3) + k4 * (x4 * x4).
Proof.
  intros H1 H2 H3 H4.
  pose proof (Rle_0_sqr x1) as S1. pose proof (Rle_0_sqr x2) as S2.
  pose proof (Rle_0_sqr x3) as S3. pose proof (Rle_0_sqr x4) as S4.
  unfold Rsqr in *.
  repeat apply Rplus_le_le_0_compat; apply Rmult_le_pos; assumption.
Qed.

(** Each indicator is a sum of four squares: the decomposition of its
    matrix into a triangular factor and a nonnegative diagonal. *)
Lemma balsara_shu_nonnegative_smoothness : nonnegative_smoothness balsara_shu.
Proof.
  intros v1 v2 v3 v4 v5 v6 v7 v8 v9.
  cbv [smoothness arith_add arith_mul exact_reals]. constants.
  repeat apply conj.

  - match goal with |- 0 <= ?q =>
      replace q with
        ((1 / 90632) * ((45316 * v1 + -208501 * v2 + 364863 * v3 + -288007 * v4 + 86329 * v5) * 
            (45316 * v1 + -208501 * v2 + 364863 * v3 + -288007 * v4 + 86329 * v5))
         + (21 / 1291443917080) * ((14249315 * v2 + -55338513 * v3 + 71911201 * v4 + -30822003 * v5) * 
            (14249315 * v2 + -55338513 * v3 + 71911201 * v4 + -30822003 * v5))
         + (21 / 414599593916705) * ((232768856 * v3 + -583582777 * v4 + 350813921 * v5) * 
            (232768856 * v3 + -583582777 * v4 + 350813921 * v5))
         + (116566909305 / 29096107) * ((1 * v4 + -1 * v5) * (1 * v4 + -1 * v5))) by field
    end.
    apply four_squares_nonnegative; lra.
  - match goal with |- 0 <= ?q =>
      replace q with
        ((1 / 27632) * ((13816 * v2 + -60871 * v3 + 99213 * v4 + -70237 * v5 + 18079 * v6) * 
            (13816 * v2 + -60871 * v3 + 99213 * v4 + -70237 * v5 + 18079 * v6))
         + (7 / 54164937200) * ((5880675 * v3 + -18329233 * v4 + 18135441 * v5 + -5686883 * v6) * 
            (5880675 * v3 + -18329233 * v4 + 18135441 * v5 + -5686883 * v6))
         + (7 / 57034916344075) * ((232768856 * v4 + -379530087 * v5 + 146761231 * v6) * 
            (232768856 * v4 + -379530087 * v5 + 146761231 * v6))
         + (116566909305 / 29096107) * ((1 * v5 + -1 * v6) * (1 * v5 + -1 * v6))) by field
    end.
    apply four_squares_nonnegative; lra.
  - match goal with |- 0 <= ?q =>
      replace q with
        ((1 / 27632) * ((13816 * v3 + -51001 * v4 + 67923 * v5 + -38947 * v6 + 8209 * v7) * 
            (13816 * v3 + -51001 * v4 + 67923 * v5 + -38947 * v6 + 8209 * v7))
         + (21 / 393737072080) * ((14249315 * v4 + -31804433 * v5 + 23242001 * v6 + -5686883 * v7) * 
            (14249315 * v4 + -31804433 * v5 + 23242001 * v6 + -5686883 * v7))
         + (42 / 10705784449265) * ((51089708 * v5 + -71725821 * v6 + 20636113 * v7) * 
            (51089708 * v5 + -71725821 * v6 + 20636113 * v7))
         + (233133818610 / 217131259) * ((1 * v6 + -1 * v7) * (1 * v6 + -1 * v7))) by field
    end.
    apply four_squares_nonnegative; lra.
  - match goal with |- 0 <= ?q =>
      replace q with
        ((1 / 90632) * ((45316 * v4 + -140251 * v5 + 165153 * v6 + -88297 * v7 + 18079 * v8) * 
            (45316 * v4 + -140251 * v5 + 165153 * v6 + -88297 * v7 + 18079 * v8))
         + (3 / 1435393816360) * ((110863235 * v5 + -217591953 * v6 + 137550721 * v7 + -30822003 * v8) * 
            (110863235 * v5 + -217591953 * v6 + 137550721 * v7 + -30822003 * v8))
         + (6 / 16697149659388345) * ((4217089556 * v6 + -5962732027 * v7 + 1745642471 * v8) * 
            (4217089556 * v6 + -5962732027 * v7 + 1745642471 * v8))
         + (233133818610 / 1054272389) * ((1 * v7 + -1 * v8) * (1 * v7 + -1 * v8))) by field
    end.
    apply four_squares_nonnegative; lra.
  - match goal with |- 0 <= ?q =>
      replace q with
        ((1 / 431672) * ((215836 * v5 + -649501 * v6 + 758823 * v7 + -411487 * v8 + 86329 * v9) * 
            (215836 * v5 + -649501 * v6 + 758823 * v7 + -411487 * v8 + 86329 * v9))
         + (7 / 128110124733240) * ((890329635 * v6 + -1835635153 * v7 + 1235377281 * v8 + -290071763 * v9) * 
            (890329635 * v6 + -1835635153 * v7 + 1235377281 * v8 + -290071763 * v9))
         + (1 / 94565592343167270) * ((17843974736 * v7 + -26228937057 * v8 + 8384962321 * v9) * 
            (17843974736 * v7 + -26228937057 * v8 + 8384962321 * v9))
         + (16652415615 / 318642406) * ((1 * v8 + -1 * v9) * (1 * v8 + -1 * v9))) by field
    end.
    apply four_squares_nonnegative; lra.
Qed.

(** On a flat window every indicator is zero before regularisation, and the
    weights are the linear weights. *)
Lemma balsara_shu_flat_smoothness (v : R) :
  smoothness balsara_shu v v v v v v v v v = (0, 0, 0, 0, 0).
Proof.
  cbv [smoothness arith_add arith_mul exact_reals]. constants.
  repeat f_equal; ring.
Qed.

Lemma balsara_shu_flat_weights (v : R) :
  weights balsara_shu v v v v v v v v v
  = Some (1 / 126, 10 / 63, 10 / 21, 20 / 63, 5 / 126).
Proof.
  unfold weights. rewrite balsara_shu_flat_smoothness.
  unfold add_epsilon.
  change (arith_add 0 (epsilon_weno9_ balsara_shu))
    with (0 + epsilon_weno9_ balsara_shu).
  assert (Heps : 0 < 0 + epsilon_weno9_ balsara_shu)
    by (pose proof balsara_shu_positive_epsilon as H; unfold positive_epsilon in H; lra).
  rewrite (alphas_defined balsara_shu Heps Heps Heps Heps Heps).
  rewrite normalize_defined; constants.
  - f_equal. repeat apply (f_equal2 pair); field.
  - lra.
Qed.

End BalsaraShu.

(** * The theorems at the constants of Balsara and Shu *)

Section Instances.

Local Open Scope R_scope.

Lemma weights_sum_to_one_witness :
  (exists w1 w2 w3 w4 w5 : R,
      weights balsara_shu 1 2 4 8 16 32 64 128 256 = Some (w1, w2, w3, w4, w5) /\
      w1 + w2 + w3 + w4 + w5 = 1) /\
  (exists w1 w2 w3 w4 w5 : R,
      weights balsara_shu 1 1 1 1 1 1 1 1 1 = Some (w1, w2, w3, w4, w5) /\
      w1 + w2 + w3 + w4 + w5 = 1).
Proof.
  exact (weights_sum_to_one balsara_shu_positive_epsilon
           balsara_shu_nonnegative_smoothness balsara_shu_positive_linear_weights
           1 2 4 8 16 32 64 128 256).
Defined.

Lemma ApplyImplementation_divisors_nonzero_witness :
  exists face : R,
    ApplyImplementation balsara_shu Checked [0; 0; 0; 0; 1; 1; 1; 1; 1] (0, 1)%Z 1
    = Return face.
Proof.
  destruct (add_epsilon balsara_shu (smoothness balsara_shu 0 0 0 0 1 1 1 1 1))
    as [[[[s1 s2] s3] s4] s5] eqn:Hs.
  destruct (ApplyImplementation_divisors_nonzero balsara_shu_positive_epsilon
              balsara_shu_nonnegative_smoothness balsara_shu_positive_linear_weights
              Hs) as (_ & _ & _ & Htotal).
  apply Htotal.
  - cbv. discriminate.
  - reflexivity.
Defined.

Lemma ApplyImplementation_affine_exact_witness :
  ApplyImplementation balsara_shu Checked [1; 3; 5; 7; 9; 11; 13; 15; 17] (0, 1)%Z 1
  = Return 10.
Proof.
  rewrite (@ApplyImplementation_affine_exact balsara_shu balsara_shu_positive_epsilon
             balsara_shu_nonnegative_smoothness balsara_shu_positive_linear_weights
             balsara_shu_affine_exact_candidates
             Checked [1; 3; 5; 7; 9; 11; 13; 15; 17] 0%Z 1%Z 1 2 1).
  - f_equal. cbn [balsara_shu downstream_stencil_size_]. simpl Z.add. lra.
  - cbv. discriminate.
  - reflexivity.
  - intros k x Hk.
    do 9 (destruct k as [ | k];
          [ injection Hk as <-; cbn [INR]; lra | cbn [nth_error] in Hk ]).
    destruct k; discriminate Hk.
Defined.

End Instances.

(** * The kernel in binary64 *)

Section Binary64.

Local Open Scope float_scope.

(** On the affine samples [1 + 2 * k] the kernel returns the double after
    10, not the affine value [1 + 2 * 4.5 = 10] at the face; on the affine
    samples [k * 2^500] the squares of the indicators overflow and the kernel
    returns no number, where the affine value at the face is the double
    [4.5 * 2^500]. *)
Lemma ApplyImplementation_binary64_affine_inexact :
  ApplyImplementation balsara_shu_binary64 Checked
    [1; 3; 5; 7; 9; 11; 13; 15; 17] (0, 1)%Z 0
  = Return 0x1.4000000000001p+3 /\
  (1 + 2 * 4.5 = 0x1.4p+3 /\ PrimFloat.eqb 0x1.4000000000001p+3 0x1.4p+3 = false) /\
  ApplyImplementation balsara_shu_binary64 Checked
    [0; 0x1p+500; 0x1p+501; 0x1.8p+501; 0x1p+502; 0x1.4p+502; 0x1.8p+502;
     0x1.cp+502; 0x1p+503] (0, 1)%Z 0
  = Return nan /\
  0 + 0x1p+500 * 4.5 = 0x1.2p+502.
Proof. repeat split; vm_compute; reflexivity. Qed.

(** On the flat window of ones the computed weights sum to the double before
    1; on a finite window of large samples they are not numbers. *)
Lemma weights_binary64_sum_inexact :
  sum_of_weights (weights balsara_shu_binary64 1 1 1 1 1 1 1 1 1)
  = Some 0x1.fffffffffffffp-1 /\
  PrimFloat.eqb 0x1.fffffffffffffp-1 1 = false /\
  weights balsara_shu_binary64 0x1p+512 0 0 0 0x1p+512 0 0 0 0x1p+512
  = Some (nan, nan, nan, nan, nan).
Proof. repeat split; vm_compute; reflexivity. Qed.

(** On a flat window of large samples the rounding of the indicator exceeds
    [epsilon_weno9_] and a regularised indicator is negative; on a finite
    window whose squares overflow every quotient [a_i] is zero, so the
    divisor [a1 + a2 + a3 + a4 + a5] is zero and the kernel returns no
    number. *)
Lemma ApplyImplementation_binary64_divisor_zero :
  add_epsilon balsara_shu_binary64
    (smoothness balsara_shu_binary64
       1048577 1048577 1048577 1048577 1048577 1048577 1048577 1048577 1048577)
  = (0x1.0000000006df3p+4, -0x1.fffffffff2419p+3, 0x1.000000001b7cep+2,
     0x1.800000000dbe7p+3, 0x1.b7cdfd9d7bdbbp-34) /\
  PrimFloat.ltb (-0x1.fffffffff2419p+3) 0 = true /\
  alphas balsara_shu_binary64
    (add_epsilon balsara_shu_binary64
       (smoothness balsara_shu_binary64 0x1p+512 0 0 0 0x1p+512 0 0 0 0x1p+512))
  = Some (0, 0, 0, 0, 0) /\
  0 + 0 + 0 + 0 + 0 = 0 /\
  ApplyImplementation balsara_shu_binary64 Checked
    [0x1p+512; 0; 0; 0; 0x1p+512; 0; 0; 0; 0x1p+512] (0, 1)%Z 0
  = Return nan.
Proof. repeat split; vm_compute; reflexivity. Qed.

Lemma balsara_shu_binary64_centred : centred balsara_shu_binary64.
Proof. unfold centred. cbn. lia. Qed.

Lemma ApplyImplementation_mirror_witness :
  ApplyImplementation balsara_shu_binary64 Checked [256; 128; 64; 32; 16; 8; 4; 2; 1]
    (- 0, - 1)%Z 0
  = ApplyImplementation balsara_shu_binary64 Checked [1; 2; 4; 8; 16; 32; 64; 128; 256]
      (0, 1)%Z 0.
Proof.
  exact (ApplyImplementation_mirror Checked [1; 2; 4; 8; 16; 32; 64; 128; 256]
           0 1 0 balsara_shu_binary64_centred eq_refl).
Defined.



Lemma ApplyImplementation_exec_pure_witness :
  snd (ApplyImplementation_exec balsara_shu_binary64 Checked (0, 1)%Z 0.5
         (MkMemory [1; 3; 5; 7; 9; 11; 13; 15; 17] 7%nat))
  = MkMemory [1; 3; 5; 7; 9; 11; 13; 15; 17] 7%nat /\
  fst (ApplyImplementation_exec balsara_shu_binary64 Checked (0, 1)%Z 0.5
         (MkMemory [1; 3; 5; 7; 9; 11; 13; 15; 17] 7%nat))
  = fst (ApplyImplementation_exec balsara_shu_binary64 Checked (0, 1)%Z 2
           (MkMemory [1; 3; 5; 7; 9; 11; 13; 15; 17] 0%nat)).
Proof.
  destruct (@ApplyImplementation_exec_pure float binary64 balsara_shu_binary64 nat
              Checked (0, 1)%Z 0.5 2
              (MkMemory [1; 3; 5; 7; 9; 11; 13; 15; 17] 7%nat)
              (MkMemory [1; 3; 5; 7; 9; 11; 13; 15; 17] 0%nat)
              eq_refl eq_refl eq_refl) as (Hmem & _ & Hout & _).
  split; [ exact Hmem | exact Hout ].
Defined.

End Binary64.

(** * The interface block: further properties of the accessors *)

Section Accessors.

(** X1. The two dispatches on the role agree: the specialisation
    [GetInterfaceDescriptionBuffer<T>()] and the switch of
    [GetInterfaceDescriptionBuffer( T )] return the same struct; and two
    different roles never share a struct. *)
Theorem GetInterfaceDescriptionBuffer_dispatch :
  (forall T : InterfaceDescriptionBufferType,
      GetInterfaceDescriptionBuffer_template T = GetInterfaceDescriptionBuffer T) /\
  (forall T T' : InterfaceDescriptionBufferType,
      GetInterfaceDescriptionBuffer T = GetInterfaceDescriptionBuffer T' <-> T = T').
Proof.
  split.
  - intros []; reflexivity.
  - intros T T'. split.
    + destruct T, T'; simpl; intros H; try reflexivity; discriminate H.
    + intros ->. reflexivity.
Qed.

(** X2. For the field types and roles the code names and indices of buffers
    that exist in the structs, two calls of [GetFieldBuffer] return the same
    buffer exactly when they name the same field type and the same index
    and, for a description, the same role: the role is ignored for states
    and parameters, and nothing else aliases. *)
Theorem GetFieldBuffer_aliasing :
  forall (InterfaceParameterModelActive : bool)
         (field_type field_type' : InterfaceFieldType) (field_index field_index' : nat)
         (buffer_type buffer_type' : InterfaceDescriptionBufferType),
    exists_buffer InterfaceParameterModelActive
      (GetFieldBuffer field_type field_index buffer_type) = true ->
    exists_buffer InterfaceParameterModelActive
      (GetFieldBuffer field_type' field_index' buffer_type') = true ->
    (GetFieldBuffer field_type field_index buffer_type
     = GetFieldBuffer field_type' field_index' buffer_type'
     <-> field_type = field_type' /\ field_index = field_index' /\
         (field_type = Description -> buffer_type = buffer_type')).
Proof.
  intros active ft ft' i i' role role' _ _. split.
  - destruct ft, ft', role, role'; simpl; intros H; inversion H;
      repeat split; try reflexivity; discriminate.
  - intros (-> & -> & Hrole).
    destruct ft'; simpl; try reflexivity.
    rewrite (Hrole eq_refl). reflexivity.
Qed.

Lemma GetFieldBuffer_aliasing_witness :
  GetFieldBuffer States 2 RightHandSide = GetFieldBuffer States 2 Reinitialized
  <-> States = States /\ 2%nat = 2%nat /\
      (States = Description -> RightHandSide = Reinitialized).
Proof.
  exact (GetFieldBuffer_aliasing true States States 2 2 RightHandSide Reinitialized
           eq_refl eq_refl).
Defined.

(** X3. No request reaches the initial buffers through [GetBuffer], in either
    build; and the reference [GetBuffer] returns denotes a buffer that does
    not exist only when it is the surface-tension-coefficient buffer and
    the interface-parameter model is disabled. *)
Theorem GetBuffer_range :
  forall (build : Build) (buffer_type : InterfaceBlockBufferType) (r : BufferRef)
         (InterfaceParameterModelActive : bool),
    GetBuffer build buffer_type = Return r ->
    ref_member r <> initial_ /\
    (exists_buffer InterfaceParameterModelActive r = false ->
     InterfaceParameterModelActive = false /\
     r = GetInterfaceParameterBuffer SurfaceTensionCoefficient).
Proof.
  intros build bt r active H.
  destruct bt, build; simpl in H; try discriminate H; injection H as <-;
    (split; [ discriminate | ]);
    destruct active; simpl; intros Hex; try discriminate Hex;
    split; reflexivity.
Qed.

Lemma GetBuffer_range_witness :
  ref_member (GetInterfaceParameterBuffer SurfaceTensionCoefficient) <> initial_ /\
  (exists_buffer false (GetInterfaceParameterBuffer SurfaceTensionCoefficient) = false ->
   false = false /\
   GetInterfaceParameterBuffer SurfaceTensionCoefficient
   = GetInterfaceParameterBuffer SurfaceTensionCoefficient).
Proof.
  exact (GetBuffer_range Performance (Unlisted 99) false eq_refl).
Defined.

(** X4. In the checked build two different identifiers never denote the same
    buffer, so a write through the buffer of one is not seen through the
    buffer of the other.  In the performance build two different identifiers
    denote the same buffer only when both are answered with the
    surface-tension-coefficient buffer. *)
Theorem GetBuffer_no_aliasing :
  forall (buffer_type buffer_type' : InterfaceBlockBufferType) (r r' : BufferRef),
    buffer_type <> buffer_type' ->
    (GetBuffer Checked buffer_type = Return r ->
     GetBuffer Checked buffer_type' = Return r' ->
     r <> r' /\
     forall (b : FieldBuffer) (blk : Block), store r b blk r' = blk r') /\
    (GetBuffer Performance buffer_type = Return r ->
     GetBuffer Performance buffer_type' = Return r' ->
     r = r' ->
     r = GetInterfaceParameterBuffer SurfaceTensionCoefficient).
Proof.
  intros bt bt' r r' Hne. split.
  - intros H H'.
    assert (Hdiff : BufferRef_eqb r' r = false).
    { destruct bt, bt'; simpl in H, H'; try discriminate H; try discriminate H';
        injection H as <-; injection H' as <-;
        try reflexivity; exfalso; apply Hne; reflexivity. }
    split.
    + intros ->. unfold BufferRef_eqb in Hdiff.
      rewrite Nat.eqb_refl in Hdiff. destruct (ref_member r'); discriminate Hdiff.
    + intros b blk. apply store_other. exact Hdiff.
  - intros H H' Heq. subst r'.
    destruct bt, bt'; simpl in H, H'; injection H as <-;
      try reflexivity; try discriminate H'; exfalso; apply Hne; reflexivity.
Qed.

Lemma GetBuffer_no_aliasing_witness :
  GetBaseBuffer Levelset <> GetBaseBuffer VolumeFraction /\
  (forall (b : FieldBuffer) (blk : Block),
      store (GetBaseBuffer Levelset) b blk (GetBaseBuffer VolumeFraction)
      = blk (GetBaseBuffer VolumeFraction)).
Proof.
  refine (proj1 (@GetBuffer_no_aliasing LevelsetBase VolumeFractionBase
                   (GetBaseBuffer Levelset) (GetBaseBuffer VolumeFraction) _)
                eq_refl eq_refl).
  discriminate.
Defined.

End Accessors.

(** * The interface block: further properties of the constructors *)

Section ConstructedStorage.

Variables TCX TCY TCZ : nat.

(** A constructed block read at any buffer and at a cell of the block: the
    writes of the constructor are unfolded and compared with the buffer. *)
Ltac read_any Hin :=
  cbv [InterfaceBlock_field InterfaceBlock_uniform SetFieldBuffer
       GetBaseBuffer_all GetInitialBuffer_all GetInterfaceStateBuffer_all
       GetInterfaceParameterBuffer_all buffer_count seq fold_left
       GetBaseBuffer GetRightHandSideBuffer GetReinitializedBuffer GetInitialBuffer
       GetInterfaceStateBuffer GetInterfaceParameterBuffer
       DescriptionIndex StateIndex ParameterIndex
       SetSingleBuffer CopySingleBuffer store BufferRef_eqb Member_eqb
       ref_member ref_index andb Nat.eqb];
  try rewrite Hin; try reflexivity.

(** X5. Both constructors initialise every existing buffer: whatever the storage
    held before, the content of each existing buffer in each cell of the
    block is the same after construction. *)
Theorem constructors_overwrite_storage :
  forall (InterfaceParameterModelActive : bool) (field : FieldBuffer) (value : float)
         (raw raw' : Block) (r : BufferRef) (cell : Cell),
    exists_buffer InterfaceParameterModelActive r = true ->
    in_block TCX TCY TCZ cell = true ->
    InterfaceBlock_field TCX TCY TCZ InterfaceParameterModelActive field raw r cell
    = InterfaceBlock_field TCX TCY TCZ InterfaceParameterModelActive field raw' r cell /\
    InterfaceBlock_uniform TCX TCY TCZ InterfaceParameterModelActive value raw r cell
    = InterfaceBlock_uniform TCX TCY TCZ InterfaceParameterModelActive value raw' r cell.
Proof.
  intros active field value raw raw' [m i] cell Hex Hin.
  unfold exists_buffer, buffer_count in Hex. cbn [ref_member ref_index] in Hex.
  destruct active, m; destruct i as [ | [ | [ | i ] ] ];
    try discriminate Hex; split; read_any Hin.
Qed.

(** X6. With the interface-parameter model disabled neither constructor writes
    the parameter storage: it holds what it held before, at every index and
    in every cell. *)
Theorem constructors_leave_disabled_parameters :
  forall (field : FieldBuffer) (value : float) (raw : Block) (index : nat) (cell : Cell),
    InterfaceBlock_field TCX TCY TCZ false field raw (MkRef parameters_ index) cell
    = raw (MkRef parameters_ index) cell /\
    InterfaceBlock_uniform TCX TCY TCZ false value raw (MkRef parameters_ index) cell
    = raw (MkRef parameters_ index) cell.
Proof.
  intros field value raw index cell. split; read_any tt.
Qed.

(** X7. The constructor from a field, given the field that is [value] in every
    cell, and the constructor from [value] build the same block, the base
    volume fraction apart; there the first writes 0.0 and the second 1.0
    when [value > 0], so the two blocks are equal exactly when [value > 0]
    does not hold. *)
Theorem constructors_agree_on_uniform_field :
  forall (InterfaceParameterModelActive : bool) (value : float) (raw : Block)
         (r : BufferRef) (cell : Cell),
    in_block TCX TCY TCZ cell = true ->
    (r <> GetBaseBuffer VolumeFraction ->
     InterfaceBlock_field TCX TCY TCZ InterfaceParameterModelActive (fun _ => value) raw
       r cell
     = InterfaceBlock_uniform TCX TCY TCZ InterfaceParameterModelActive value raw
         r cell) /\
    InterfaceBlock_field TCX TCY TCZ InterfaceParameterModelActive (fun _ => value) raw
      (GetBaseBuffer VolumeFraction) cell = 0%float /\
    InterfaceBlock_uniform TCX TCY TCZ InterfaceParameterModelActive value raw
      (GetBaseBuffer VolumeFraction) cell
    = (if PrimFloat.ltb 0%float value then 1%float else 0%float).
Proof.
  intros active value raw [m i] cell Hin. repeat apply conj.
  - intros Hne.
    destruct active, m; destruct i as [ | [ | [ | i ] ] ];
      read_any Hin; exfalso; apply Hne; reflexivity.
  - destruct active; read_any Hin.
  - destruct active; read_any Hin.
Qed.

End ConstructedStorage.

Lemma constructors_overwrite_storage_witness :
  InterfaceBlock_field 3 2 2 true sample_field sample_storage
    (GetInterfaceStateBuffer PressureNegative) (2, 1, 1)
  = InterfaceBlock_field 3 2 2 true sample_field (fun _ _ => nan)
      (GetInterfaceStateBuffer PressureNegative) (2, 1, 1) /\
  InterfaceBlock_uniform 3 2 2 true 2.5%float sample_storage
    (GetInterfaceStateBuffer PressureNegative) (2, 1, 1)
  = InterfaceBlock_uniform 3 2 2 true 2.5%float (fun _ _ => nan)
      (GetInterfaceStateBuffer PressureNegative) (2, 1, 1).
Proof.
  exact (constructors_overwrite_storage 3 2 2 true sample_field 2.5%float sample_storage
           (fun _ _ => nan) (GetInterfaceStateBuffer PressureNegative) (2, 1, 1)
           eq_refl eq_refl).
Defined.

Lemma constructors_agree_on_uniform_field_witness :
  InterfaceBlock_field 3 2 2 false (fun _ => 2.5%float) sample_storage
    (GetReinitializedBuffer Levelset) (0, 1, 1)
  = InterfaceBlock_uniform 3 2 2 false 2.5%float sample_storage
      (GetReinitializedBuffer Levelset) (0, 1, 1) /\
  InterfaceBlock_field 3 2 2 false (fun _ => 2.5%float) sample_storage
    (GetBaseBuffer VolumeFraction) (0, 1, 1) = 0%float /\
  InterfaceBlock_uniform 3 2 2 false 2.5%float sample_storage
    (GetBaseBuffer VolumeFraction) (0, 1, 1) = 1%float.
Proof.
  destruct (constructors_agree_on_uniform_field 3 2 2 false 2.5%float sample_storage
              (GetReinitializedBuffer Levelset) (0, 1, 1) eq_refl)
    as (Hsame & Hfield & Huniform).
  split; [ apply Hsame; discriminate | split; [ exact Hfield | exact Huniform ] ].
Defined.

(** * WENO9: further properties in every arithmetic *)

Section KernelReads.

Context {D : Type} {arith : Arithmetic D}.
Variable c : Coefficients D.

(** X9. The kernel applied to the reversed array, with the stride negated and the
    offset mirrored about the middle of the array, returns what it returns
    on the array, for an array of any length: for an array of
    [2 * downstream_stencil_size_ + 2] samples the offsets 0 and 1 are
    exchanged. *)
Theorem ApplyImplementation_reversed_array :
  forall (build : Build) (array : list D) (e0 e1 : Z) (cell_size : D),
    (Z.of_nat (List.length array) <= 2 ^ 32)%Z ->
    ApplyImplementation c build (rev array)
      (Z.of_nat (List.length array) - 1 - 2 * c.(downstream_stencil_size_) - e0, - e1)%Z
      cell_size
    = ApplyImplementation c build array (e0, e1) cell_size.
Proof.
  intros build array e0 e1 cell_size Hbound. unfold ApplyImplementation.
  rewrite length_rev, (window_rev c array e0 e1 Hbound). reflexivity.
Qed.

End KernelReads.

Section KernelBinary64.

Variable c : Coefficients float.

(** X10. In binary64 every division returns a value, so the kernel returns a
    double, in both builds the same, on every array that passes the check
    and contains the window: no read leaves the array and nothing is
    thrown. *)
Theorem ApplyImplementation_binary64_returns :
  forall (array : list float) (e0 e1 : Z) (cell_size : float),
    (c.(stencil_size_) <= Z.of_nat (List.length array))%Z ->
    window_in_range c (List.length array) (e0, e1) = true ->
    exists face : float,
      ApplyImplementation c Checked array (e0, e1) cell_size = Return face /\
      ApplyImplementation c Performance array (e0, e1) cell_size = Return face.
Proof.
  intros array e0 e1 cell_size Hlen Hrange.
  unfold ApplyImplementation. cbn [is_checked andb].
  replace (Z.of_nat (List.length array) <? c.(stencil_size_))%Z with false
    by (symmetry; apply Z.ltb_ge; exact Hlen).
  destruct (window_defined c array e0 e1 Hrange)
    as (v1 & v2 & v3 & v4 & v5 & v6 & v7 & v8 & v9 & -> & _).
  unfold weights, alphas, normalize.
  destruct (add_epsilon c (smoothness c v1 v2 v3 v4 v5 v6 v7 v8 v9))
    as [[[[s1 s2] s3] s4] s5].
  cbn. eexists. split; reflexivity.
Qed.

End KernelBinary64.

Lemma ApplyImplementation_reversed_array_witness :
  ApplyImplementation balsara_shu_binary64 Performance
    [512; 256; 128; 64; 32; 16; 8; 4; 2; 1]%float (1, - 1)%Z 0%float
  = ApplyImplementation balsara_shu_binary64 Performance
      [1; 2; 4; 8; 16; 32; 64; 128; 256; 512]%float (0, 1)%Z 0%float.
Proof.
  refine (@ApplyImplementation_reversed_array float binary64 balsara_shu_binary64
            Performance [1; 2; 4; 8; 16; 32; 64; 128; 256; 512]%float 0%Z 1%Z 0%float _).
  cbn. lia.
Defined.

Lemma ApplyImplementation_binary64_returns_witness :
  exists face : float,
    ApplyImplementation balsara_shu_binary64 Checked
      [1; 2; 4; 8; 16; 32; 64; 128; 256]%float (0, 1)%Z 0%float = Return face /\
    ApplyImplementation balsara_shu_binary64 Performance
      [1; 2; 4; 8; 16; 32; 64; 128; 256]%float (0, 1)%Z 0%float = Return face.
Proof.
  refine (@ApplyImplementation_binary64_returns balsara_shu_binary64
            [1; 2; 4; 8; 16; 32; 64; 128; 256]%float 0%Z 1%Z 0%float _ eq_refl).
  cbn. lia.
Defined.

(** * WENO9 in exact arithmetic: further laws *)

Section ExactLaws.

Variable c : Coefficients R.

Local Open Scope R_scope.

Ltac real_arithmetic := cbv [arith_add arith_mul arith_one].

(** The normalised weights, where the normalisation is defined, sum to
    one. *)
Lemma normalize_sum_one (a1 a2 a3 a4 a5 w1 w2 w3 w4 w5 : R) :
  normalize (a1, a2, a3, a4, a5) = Some (w1, w2, w3, w4, w5) ->
  a1 + a2 + a3 + a4 + a5 <> 0 /\
  w1 = a1 / (a1 + a2 + a3 + a4 + a5) /\ w2 = a2 / (a1 + a2 + a3 + a4 + a5) /\
  w3 = a3 / (a1 + a2 + a3 + a4 + a5) /\ w4 = a4 / (a1 + a2 + a3 + a4 + a5) /\
  w5 = a5 / (a1 + a2 + a3 + a4 + a5) /\
  w1 + w2 + w3 + w4 + w5 = 1.
Proof.
  unfold normalize. cbn.
  destruct (Req_dec_T (a1 + a2 + a3 + a4 + a5) 0) as [H0 | Hsum];
    [ discriminate | ].
  intros [= <- <- <- <- <-].
  repeat split; try assumption; field; assumption.
Qed.

(** The weights under the conditions on the constants: defined, positive,
    of sum one. *)
Lemma weights_defined_positive (v1 v2 v3 v4 v5 v6 v7 v8 v9 : R) :
  positive_epsilon c -> nonnegative_smoothness c -> positive_linear_weights c ->
  exists w1 w2 w3 w4 w5 : R,
    weights c v1 v2 v3 v4 v5 v6 v7 v8 v9 = Some (w1, w2, w3, w4, w5) /\
    (0 < w1 /\ 0 < w2 /\ 0 < w3 /\ 0 < w4 /\ 0 < w5) /\
    w1 + w2 + w3 + w4 + w5 = 1.
Proof.
  intros Heps Hsm (Hd1 & Hd2 & Hd3 & Hd4 & Hd5).
  unfold weights.
  destruct (add_epsilon c (smoothness c v1 v2 v3 v4 v5 v6 v7 v8 v9))
    as [[[[s1 s2] s3] s4] s5] eqn:Hs.
  destruct (add_epsilon_positive Heps Hsm Hs) as (H1 & H2 & H3 & H4 & H5).
  rewrite alphas_defined by assumption.
  pose proof (alpha_positive Hd1 H1) as Ha1.
  pose proof (alpha_positive Hd2 H2) as Ha2.
  pose proof (alpha_positive Hd3 H3) as Ha3.
  pose proof (alpha_positive Hd4 H4) as Ha4.
  pose proof (alpha_positive Hd5 H5) as Ha5.
  set (a1 := c.(coef_weights_1_) / (s1 * s1)) in *.
  set (a2 := c.(coef_weights_2_) / (s2 * s2)) in *.
  set (a3 := c.(coef_weights_3_) / (s3 * s3)) in *.
  set (a4 := c.(coef_weights_4_) / (s4 * s4)) in *.
  set (a5 := c.(coef_weights_5_) / (s5 * s5)) in *.
  assert (Hsum : 0 < a1 + a2 + a3 + a4 + a5) by lra.
  rewrite normalize_defined by lra.
  assert (Hinv : 0 < 1 / (a1 + a2 + a3 + a4 + a5))
    by (apply Rdiv_lt_0_compat; lra).
  do 5 eexists. split; [ reflexivity | ]. split.
  - repeat split; apply Rmult_lt_0_compat; assumption.
  - field. lra.
Qed.

(** X11. Whatever the constants are, the weights of a window, where they are
    defined, sum to one. *)
Theorem weights_defined_sum_to_one :
  forall v1 v2 v3 v4 v5 v6 v7 v8 v9 w1 w2 w3 w4 w5 : R,
    weights c v1 v2 v3 v4 v5 v6 v7 v8 v9 = Some (w1, w2, w3, w4, w5) ->
    w1 + w2 + w3 + w4 + w5 = 1.
Proof.
  intros v1 v2 v3 v4 v5 v6 v7 v8 v9 w1 w2 w3 w4 w5. unfold weights.
  destruct (alphas c (add_epsilon c (smoothness c v1 v2 v3 v4 v5 v6 v7 v8 v9)))
    as [[[[[a1 a2] a3] a4] a5] | ]; [ | discriminate ].
  intros H. apply normalize_sum_one in H. tauto.
Qed.

(** X12. Under the conditions on the constants every weight lies strictly
    between zero and one. *)
Theorem weights_between_zero_and_one :
  positive_epsilon c -> nonnegative_smoothness c -> positive_linear_weights c ->
  forall v1 v2 v3 v4 v5 v6 v7 v8 v9 : R,
  exists w1 w2 w3 w4 w5 : R,
    weights c v1 v2 v3 v4 v5 v6 v7 v8 v9 = Some (w1, w2, w3, w4, w5) /\
    0 < w1 < 1 /\ 0 < w2 < 1 /\ 0 < w3 < 1 /\ 0 < w4 < 1 /\ 0 < w5 < 1.
Proof.
  intros Heps Hsm Hd v1 v2 v3 v4 v5 v6 v7 v8 v9.
  destruct (weights_defined_positive v1 v2 v3 v4 v5 v6 v7 v8 v9 Heps Hsm Hd)
    as (w1 & w2 & w3 & w4 & w5 & Hw & (P1 & P2 & P3 & P4 & P5) & Hsum).
  exists w1, w2, w3, w4, w5. split; [ exact Hw | ].
  repeat split; lra.
Qed.

(** The result is the average of the five candidate values. *)
Lemma weighted_average_candidates (w1 w2 w3 w4 w5 v1 v2 v3 v4 v5 v6 v7 v8 v9
    R1 R2 R3 R4 R5 : R) :
  candidates c v1 v2 v3 v4 v5 v6 v7 v8 v9 = (R1, R2, R3, R4, R5) ->
  weighted_average c (w1, w2, w3, w4, w5) v1 v2 v3 v4 v5 v6 v7 v8 v9
  = w1 * R1 + w2 * R2 + w3 * R3 + w4 * R4 + w5 * R5.
Proof.
  unfold candidates, weighted_average. intros [= <- <- <- <- <-]. reflexivity.
Qed.

(** X13. The result lies between any two bounds of the five candidate values: the
    kernel never leaves the range of its candidates. *)
Theorem weighted_average_within_candidates :
  positive_epsilon c -> nonnegative_smoothness c -> positive_linear_weights c ->
  forall v1 v2 v3 v4 v5 v6 v7 v8 v9 R1 R2 R3 R4 R5 lo hi : R,
    candidates c v1 v2 v3 v4 v5 v6 v7 v8 v9 = (R1, R2, R3, R4, R5) ->
    lo <= R1 <= hi -> lo <= R2 <= hi -> lo <= R3 <= hi -> lo <= R4 <= hi ->
    lo <= R5 <= hi ->
    exists w : R * R * R * R * R,
      weights c v1 v2 v3 v4 v5 v6 v7 v8 v9 = Some w /\
      lo <= weighted_average c w v1 v2 v3 v4 v5 v6 v7 v8 v9 <= hi.
Proof.
  intros Heps Hsm Hd v1 v2 v3 v4 v5 v6 v7 v8 v9 R1 R2 R3 R4 R5 lo hi HR B1 B2 B3 B4 B5.
  destruct (weights_defined_positive v1 v2 v3 v4 v5 v6 v7 v8 v9 Heps Hsm Hd)
    as (w1 & w2 & w3 & w4 & w5 & Hw & (P1 & P2 & P3 & P4 & P5) & Hsum).
  exists (w1, w2, w3, w4, w5). split; [ exact Hw | ].
  rewrite (weighted_average_candidates w1 w2 w3 w4 w5 HR).
  assert (L1 : 0 <= w1 * (R1 - lo)) by (apply Rmult_le_pos; lra).
  assert (L2 : 0 <= w2 * (R2 - lo)) by (apply Rmult_le_pos; lra).
  assert (L3 : 0 <= w3 * (R3 - lo)) by (apply Rmult_le_pos; lra).
  assert (L4 : 0 <= w4 * (R4 - lo)) by (apply Rmult_le_pos; lra).
  assert (L5 : 0 <= w5 * (R5 - lo)) by (apply Rmult_le_pos; lra).
  assert (U1 : 0 <= w1 * (hi - R1)) by (apply Rmult_le_pos; lra).
  assert (U2 : 0 <= w2 * (hi - R2)) by (apply Rmult_le_pos; lra).
  assert (U3 : 0 <= w3 * (hi - R3)) by (apply Rmult_le_pos; lra).
  assert (U4 : 0 <= w4 * (hi - R4)) by (apply Rmult_le_pos; lra).
  assert (U5 : 0 <= w5 * (hi - R5)) by (apply Rmult_le_pos; lra).
  assert (Elo : w1 * R1 + w2 * R2 + w3 * R3 + w4 * R4 + w5 * R5
                = (w1 + w2 + w3 + w4 + w5) * lo
                  + (w1 * (R1 - lo) + w2 * (R2 - lo) + w3 * (R3 - lo)
                     + w4 * (R4 - lo) + w5 * (R5 - lo))) by ring.
  assert (Ehi : w1 * R1 + w2 * R2 + w3 * R3 + w4 * R4 + w5 * R5
                = (w1 + w2 + w3 + w4 + w5) * hi
                  - (w1 * (hi - R1) + w2 * (hi - R2) + w3 * (hi - R3)
                     + w4 * (hi - R4) + w5 * (hi - R5))) by ring.
  rewrite Hsum in Elo, Ehi. lra.
Qed.

(** X14. Where the five regularised indicators are equal, the weights are the
    linear weights divided by their sum: the kernel applies the optimal
    combination of the candidates. *)
Theorem weights_of_equal_indicators :
  positive_linear_weights c ->
  forall v1 v2 v3 v4 v5 v6 v7 v8 v9 s : R,
    add_epsilon c (smoothness c v1 v2 v3 v4 v5 v6 v7 v8 v9) = (s, s, s, s, s) ->
    0 < s ->
    weights c v1 v2 v3 v4 v5 v6 v7 v8 v9
    = Some (c.(coef_weights_1_)
              / (c.(coef_weights_1_) + c.(coef_weights_2_) + c.(coef_weights_3_)
                 + c.(coef_weights_4_) + c.(coef_weights_5_)),
            c.(coef_weights_2_)
              / (c.(coef_weights_1_) + c.(coef_weights_2_) + c.(coef_weights_3_)
                 + c.(coef_weights_4_) + c.(coef_weights_5_)),
            c.(coef_weights_3_)
              / (c.(coef_weights_1_) + c.(coef_weights_2_) + c.(coef_weights_3_)
                 + c.(coef_weights_4_) + c.(coef_weights_5_)),
            c.(coef_weights_4_)
              / (c.(coef_weights_1_) + c.(coef_weights_2_) + c.(coef_weights_3_)
                 + c.(coef_weights_4_) + c.(coef_weights_5_)),
            c.(coef_weights_5_)
              / (c.(coef_weights_1_) + c.(coef_weights_2_) + c.(coef_weights_3_)
                 + c.(coef_weights_4_) + c.(coef_weights_5_))).
Proof.
  intros (Hd1 & Hd2 & Hd3 & Hd4 & Hd5) v1 v2 v3 v4 v5 v6 v7 v8 v9 s Hs Hpos.
  unfold weights. rewrite Hs.
  rewrite alphas_defined by assumption.
  pose proof (alpha_positive Hd1 Hpos) as Ha1.
  pose proof (alpha_positive Hd2 Hpos) as Ha2.
  pose proof (alpha_positive Hd3 Hpos) as Ha3.
  pose proof (alpha_positive Hd4 Hpos) as Ha4.
  pose proof (alpha_positive Hd5 Hpos) as Ha5.
  rewrite normalize_defined by lra.
  assert (Hs2 : s * s <> 0) by (apply square_nonzero; exact Hpos).
  assert (Hsum : c.(coef_weights_1_) + c.(coef_weights_2_) + c.(coef_weights_3_)
                 + c.(coef_weights_4_) + c.(coef_weights_5_) <> 0) by lra.
  f_equal. repeat apply (f_equal2 pair); field; split; lra.
Qed.

End ExactLaws.

(** * WENO9 in exact arithmetic: symmetries *)

Section KernelMaps.

Context {D : Type} {arith : Arithmetic D}.
Variable c : Coefficients D.

(** Reading a mapped array reads the array and maps the element. *)
Lemma read_map (f : D -> D) (array : list D) (i : Z) :
  read (map f array) i = option_map f (read array i).
Proof. unfold read. apply nth_error_map. Qed.

End KernelMaps.

Section ExactSymmetries.

Variable c : Coefficients R.

Local Open Scope R_scope.

Lemma smoothness_opp (v1 v2 v3 v4 v5 v6 v7 v8 v9 : R) :
  smoothness c (- v1) (- v2) (- v3) (- v4) (- v5) (- v6) (- v7) (- v8) (- v9)
  = smoothness c v1 v2 v3 v4 v5 v6 v7 v8 v9.
Proof.
  cbv [smoothness arith_add arith_mul exact_reals].
  repeat apply (f_equal2 pair); ring.
Qed.

Lemma weighted_average_opp (w : R * R * R * R * R) (v1 v2 v3 v4 v5 v6 v7 v8 v9 : R) :
  weighted_average c w (- v1) (- v2) (- v3) (- v4) (- v5) (- v6) (- v7) (- v8) (- v9)
  = - weighted_average c w v1 v2 v3 v4 v5 v6 v7 v8 v9.
Proof.
  destruct w as [[[[w1 w2] w3] w4] w5].
  cbv [weighted_average arith_add arith_mul exact_reals]. ring.
Qed.

(** X15. Whatever the constants are, the kernel is odd: on the array of the
    opposite samples it returns the opposite value, and it throws or is
    undefined there exactly when it is on the array.  The indicators are
    quadratic, so the weights do not see the sign. *)
Theorem ApplyImplementation_odd :
  forall (build : Build) (array : list R) (evaluation_properties : Z * Z)
         (cell_size cell_size' : R),
    ApplyImplementation c build (map Ropp array) evaluation_properties cell_size
    = map_outcome Ropp
        (ApplyImplementation c build array evaluation_properties cell_size').
Proof.
  intros build array ep cell_size cell_size'.
  unfold ApplyImplementation. rewrite length_map.
  destruct (is_checked build && (Z.of_nat (List.length array) <? c.(stencil_size_))%Z);
    [ reflexivity | ].
  unfold window. rewrite !read_map.
  repeat match goal with
         | |- context [read array ?i] =>
             destruct (read array i); cbn [option_map map_outcome]; [ | reflexivity ]
         end.
  match goal with
  | |- context [weights c (- ?x1) (- ?x2) (- ?x3) (- ?x4) (- ?x5) (- ?x6) (- ?x7)
                  (- ?x8) (- ?x9)] =>
      replace (weights c (- x1) (- x2) (- x3) (- x4) (- x5) (- x6) (- x7) (- x8) (- x9))
        with (weights c x1 x2 x3 x4 x5 x6 x7 x8 x9)
        by (unfold weights; rewrite smoothness_opp; reflexivity);
      destruct (weights c x1 x2 x3 x4 x5 x6 x7 x8 x9) as [w | ];
        cbn [map_outcome]; [ | reflexivity ]
  end.
  f_equal. apply weighted_average_opp.
Qed.

Lemma weighted_average_shift (w1 w2 w3 w4 w5 t v1 v2 v3 v4 v5 v6 v7 v8 v9 : R) :
  unit_sum_candidates c ->
  w1 + w2 + w3 + w4 + w5 = 1 ->
  weighted_average c (w1, w2, w3, w4, w5)
    (v1 + t) (v2 + t) (v3 + t) (v4 + t) (v5 + t) (v6 + t) (v7 + t) (v8 + t) (v9 + t)
  = weighted_average c (w1, w2, w3, w4, w5) v1 v2 v3 v4 v5 v6 v7 v8 v9 + t.
Proof.
  intros (S1 & S2 & S3 & S4 & S5) Hw.
  transitivity
    (weighted_average c (w1, w2, w3, w4, w5) v1 v2 v3 v4 v5 v6 v7 v8 v9
     + t * (w1 * (c.(coef_stencils_1_) + c.(coef_stencils_2_) + c.(coef_stencils_3_)
                  + c.(coef_stencils_4_) + c.(coef_stencils_5_))
            + w2 * (c.(coef_stencils_6_) + c.(coef_stencils_7_) + c.(coef_stencils_8_)
                    + c.(coef_stencils_9_) + c.(coef_stencils_10_))
            + w3 * (c.(coef_stencils_11_) + c.(coef_stencils_12_)
                    + c.(coef_stencils_13_) + c.(coef_stencils_14_)
                    + c.(coef_stencils_15_))
            + w4 * (c.(coef_stencils_16_) + c.(coef_stencils_17_)
                    + c.(coef_stencils_18_) + c.(coef_stencils_19_)
                    + c.(coef_stencils_20_))
            + w5 * (c.(coef_stencils_21_) + c.(coef_stencils_22_)
                    + c.(coef_stencils_23_) + c.(coef_stencils_24_)
                    + c.(coef_stencils_25_)))).
  - cbv [weighted_average arith_add arith_mul exact_reals]. ring.
  - rewrite S1, S2, S3, S4, S5.
    replace (w1 * 1 + w2 * 1 + w3 * 1 + w4 * 1 + w5 * 1) with 1 by lra. ring.
Qed.

(** X16. When the indicators see differences of samples only and the
    coefficients of every candidate sum to one, the kernel commutes with a
    shift of the samples: on the array with [t] added to every sample it
    returns the value on the array plus [t], and it throws or is undefined
    there exactly when it is on the array. *)
Theorem ApplyImplementation_shift :
  shift_invariant_smoothness c -> unit_sum_candidates c ->
  forall (build : Build) (array : list R) (evaluation_properties : Z * Z)
         (t cell_size : R),
    ApplyImplementation c build (map (fun x => x + t) array) evaluation_properties
      cell_size
    = map_outcome (fun y => y + t)
        (ApplyImplementation c build array evaluation_properties cell_size).
Proof.
  intros Hshift Hsum build array ep t cell_size.
  unfold ApplyImplementation. rewrite length_map.
  destruct (is_checked build && (Z.of_nat (List.length array) <? c.(stencil_size_))%Z);
    [ reflexivity | ].
  unfold window. rewrite !read_map.
  repeat match goal with
         | |- context [read array ?i] =>
             destruct (read array i); cbn [option_map map_outcome]; [ | reflexivity ]
         end.
  match goal with
  | |- context [weights c (?x1 + t) (?x2 + t) (?x3 + t) (?x4 + t) (?x5 + t) (?x6 + t)
                  (?x7 + t) (?x8 + t) (?x9 + t)] =>
      replace (weights c (x1 + t) (x2 + t) (x3 + t) (x4 + t) (x5 + t) (x6 + t)
                 (x7 + t) (x8 + t) (x9 + t))
        with (weights c x1 x2 x3 x4 x5 x6 x7 x8 x9)
        by (unfold weights; rewrite Hshift; reflexivity);
      destruct (weights c x1 x2 x3 x4 x5 x6 x7 x8 x9) as [[[[[w1 w2] w3] w4] w5] | ]
        eqn:Hw; cbn [map_outcome]; [ | reflexivity ];
      unfold weights in Hw;
      destruct (alphas c (add_epsilon c (smoothness c x1 x2 x3 x4 x5 x6 x7 x8 x9)))
        as [[[[[a1 a2] a3] a4] a5] | ]; [ | discriminate Hw ]
  end.
  f_equal. apply weighted_average_shift; [ exact Hsum | ].
  apply normalize_sum_one in Hw. tauto.
Qed.


End ExactSymmetries.

(** * The further laws at the constants of Balsara and Shu *)

Ltac balsara_shu_constants :=
  cbv [balsara_shu
       coef_smoothness_0_01_ coef_smoothness_0_02_ coef_smoothness_0_03_
       coef_smoothness_0_04_ coef_smoothness_0_05_ coef_smoothness_0_06_
       coef_smoothness_0_07_ coef_smoothness_0_08_ coef_smoothness_0_09_
       coef_smoothness_0_10_ coef_smoothness_0_11_ coef_smoothness_0_12_
       coef_smoothness_0_13_ coef_smoothness_0_14_ coef_smoothness_0_15_
       coef_smoothness_1_01_ coef_smoothness_1_02_ coef_smoothness_1_03_
       coef_smoothness_1_04_ coef_smoothness_1_05_ coef_smoothness_1_06_
       coef_smoothness_1_07_ coef_smoothness_1_08_ coef_smoothness_1_09_
       coef_smoothness_1_10_ coef_smoothness_1_11_ coef_smoothness_1_12_
       coef_smoothness_1_13_ coef_smoothness_1_14_ coef_smoothness_1_15_
       coef_smoothness_2_01_ coef_smoothness_2_02_ coef_smoothness_2_03_
       coef_smoothness_2_04_ coef_smoothness_2_05_ coef_smoothness_2_06_
       coef_smoothness_2_07_ coef_smoothness_2_08_ coef_smoothness_2_09_
       coef_smoothness_2_10_ coef_smoothness_2_11_ coef_smoothness_2_12_
       coef_smoothness_2_13_ coef_smoothness_2_14_ coef_smoothness_2_15_
       coef_smoothness_3_01_ coef_smoothness_3_02_ coef_smoothness_3_03_
       coef_smoothness_3_04_ coef_smoothness_3_05_ coef_smoothness_3_06_
       coef_smoothness_3_07_ coef_smoothness_3_08_ coef_smoothness_3_09_
       coef_smoothness_3_10_ coef_smoothness_3_11_ coef_smoothness_3_12_
       coef_smoothness_3_13_ coef_smoothness_3_14_ coef_smoothness_3_15_
       coef_smoothness_4_01_ coef_smoothness_4_02_ coef_smoothness_4_03_
       coef_smoothness_4_04_ coef_smoothness_4_05_ coef_smoothness_4_06_
       coef_smoothness_4_07_ coef_smoothness_4_08_ coef_smoothness_4_09_
       coef_smoothness_4_10_ coef_smoothness_4_11_ coef_smoothness_4_12_
       coef_smoothness_4_13_ coef_smoothness_4_14_ coef_smoothness_4_15_
       coef_weights_1_ coef_weights_2_ coef_weights_3_ coef_weights_4_ coef_weights_5_
       coef_stencils_1_ coef_stencils_2_ coef_stencils_3_ coef_stencils_4_
       coef_stencils_5_ coef_stencils_6_ coef_stencils_7_ coef_stencils_8_
       coef_stencils_9_ coef_stencils_10_ coef_stencils_11_ coef_stencils_12_
       coef_stencils_13_ coef_stencils_14_ coef_stencils_15_ coef_stencils_16_
       coef_stencils_17_ coef_stencils_18_ coef_stencils_19_ coef_stencils_20_
       coef_stencils_21_ coef_stencils_22_ coef_stencils_23_ coef_stencils_24_
       coef_stencils_25_ epsilon_weno9_ stencil_size_ downstream_stencil_size_].

Section FurtherInstances.

Local Open Scope R_scope.

Lemma balsara_shu_shift_invariant_smoothness : shift_invariant_smoothness balsara_shu.
Proof.
  intros t v1 v2 v3 v4 v5 v6 v7 v8 v9.
  cbv [smoothness arith_add arith_mul exact_reals]. balsara_shu_constants.
  repeat apply (f_equal2 pair); ring.
Qed.

(** The candidate values of the step from 0 to 1 after the fourth sample. *)
Lemma balsara_shu_step_candidates :
  candidates balsara_shu 0 0 0 0 1 1 1 1 1 = (137 / 60, 89 / 60, 71 / 60, 63 / 60, 1).
Proof.
  cbv [candidates arith_add arith_mul exact_reals]. balsara_shu_constants.
  repeat apply (f_equal2 pair); field.
Qed.

Lemma weights_defined_sum_to_one_witness :
  1 / 126 + 10 / 63 + 10 / 21 + 20 / 63 + 5 / 126 = 1.
Proof.
  exact (@weights_defined_sum_to_one balsara_shu 1 1 1 1 1 1 1 1 1
           (1 / 126) (10 / 63) (10 / 21) (20 / 63) (5 / 126)
           (balsara_shu_flat_weights 1)).
Defined.

Lemma weights_between_zero_and_one_witness :
  exists w1 w2 w3 w4 w5 : R,
    weights balsara_shu 0 0 0 0 1 1 1 1 1 = Some (w1, w2, w3, w4, w5) /\
    0 < w1 < 1 /\ 0 < w2 < 1 /\ 0 < w3 < 1 /\ 0 < w4 < 1 /\ 0 < w5 < 1.
Proof.
  exact (weights_between_zero_and_one balsara_shu_positive_epsilon
           balsara_shu_nonnegative_smoothness balsara_shu_positive_linear_weights
           0 0 0 0 1 1 1 1 1).
Defined.

Lemma weighted_average_within_candidates_witness :
  exists w : R * R * R * R * R,
    weights balsara_shu 0 0 0 0 1 1 1 1 1 = Some w /\
    1 <= weighted_average balsara_shu w 0 0 0 0 1 1 1 1 1 <= 137 / 60.
Proof.
  refine (@weighted_average_within_candidates balsara_shu
            balsara_shu_positive_epsilon balsara_shu_nonnegative_smoothness
            balsara_shu_positive_linear_weights 0 0 0 0 1 1 1 1 1
            (137 / 60) (89 / 60) (71 / 60) (63 / 60) 1 1 (137 / 60)
            balsara_shu_step_candidates _ _ _ _ _); lra.
Defined.

Lemma weights_of_equal_indicators_witness :
  weights balsara_shu 3 3 3 3 3 3 3 3 3
  = Some (balsara_shu.(coef_weights_1_)
            / (balsara_shu.(coef_weights_1_) + balsara_shu.(coef_weights_2_)
               + balsara_shu.(coef_weights_3_) + balsara_shu.(coef_weights_4_)
               + balsara_shu.(coef_weights_5_)),
          balsara_shu.(coef_weights_2_)
            / (balsara_shu.(coef_weights_1_) + balsara_shu.(coef_weights_2_)
               + balsara_shu.(coef_weights_3_) + balsara_shu.(coef_weights_4_)
               + balsara_shu.(coef_weights_5_)),
          balsara_shu.(coef_weights_3_)
            / (balsara_shu.(coef_weights_1_) + balsara_shu.(coef_weights_2_)
               + balsara_shu.(coef_weights_3_) + balsara_shu.(coef_weights_4_)
               + balsara_shu.(coef_weights_5_)),
          balsara_shu.(coef_weights_4_)
            / (balsara_shu.(coef_weights_1_) + balsara_shu.(coef_weights_2_)
               + balsara_shu.(coef_weights_3_) + balsara_shu.(coef_weights_4_)
               + balsara_shu.(coef_weights_5_)),
          balsara_shu.(coef_weights_5_)
            / (balsara_shu.(coef_weights_1_) + balsara_shu.(coef_weights_2_)
               + balsara_shu.(coef_weights_3_) + balsara_shu.(coef_weights_4_)
               + balsara_shu.(coef_weights_5_))).
Proof.
  refine (@weights_of_equal_indicators balsara_shu balsara_shu_positive_linear_weights
            3 3 3 3 3 3 3 3 3 (0 + balsara_shu.(epsilon_weno9_)) _ _).
  - rewrite balsara_shu_flat_smoothness. reflexivity.
  - pose proof balsara_shu_positive_epsilon as H. unfold positive_epsilon in H. lra.
Defined.

Lemma balsara_shu_unit_sum_candidates : unit_sum_candidates balsara_shu.
Proof.
  destruct balsara_shu_affine_exact_candidates
    as ((S1 & _) & (S2 & _) & (S3 & _) & (S4 & _) & (S5 & _)).
  repeat apply conj; assumption.
Qed.

Lemma ApplyImplementation_shift_witness :
  ApplyImplementation balsara_shu Checked
    (map (fun x => x + 5) [0; 0; 0; 0; 1; 1; 1; 1; 1]) (0, 1)%Z 1
  = map_outcome (fun y => y + 5)
      (ApplyImplementation balsara_shu Checked [0; 0; 0; 0; 1; 1; 1; 1; 1] (0, 1)%Z 1).
Proof.
  exact (ApplyImplementation_shift balsara_shu_shift_invariant_smoothness
           balsara_shu_unit_sum_candidates Checked
           [0; 0; 0; 0; 1; 1; 1; 1; 1] (0, 1)%Z 5 1).
Defined.


End FurtherInstances.
